(** * Minimal Python A2A agent: a shallow embedding of [app/main.py]

    The agent is a FastAPI application with three routes:
    [GET /api/agent_card], [POST /api/agent_card] and [POST /api/a2a].
    The handlers are embedded as Rocq functions over a model of the Python
    values that [json.loads] can produce.  Exceptions and the calls to
    [logger] are threaded through a small writer/exception monad.

    Of the framework, the embedding keeps what the handlers run: the
    outcome of [request.json()] is an input, and the constructor
    [JSONResponse(...)] renders its content when it is called, so that it
    raises inside the handler for a content that is not JSON.  The resource
    limits of the interpreter (memory, the recursion limit that a body
    nested some hundreds of levels deep can reach) are left out. *)

From Stdlib Require Import String Ascii List ZArith Bool Lia DecimalString.
Import ListNotations.

Local Open Scope Z_scope.
Local Open Scope string_scope.

(** ** Python values *)

Module Py.

(** The values a parsed JSON body is made of.  A [str] is represented by
    its UTF-8 bytes, so that [str.encode()] is the identity.  A [float] is
    represented by the text [repr] prints for it: the handlers observe a
    float only through its truth value and its formatting.

    [json.loads] lets two kinds of value through that cannot be written
    back as JSON.  A number out of range ([1e400], [NaN], [Infinity]) is the
    float [inf], [-inf] or [nan].  A lone surrogate ([\ud800] alone) is a
    character that UTF-8 cannot encode; in a [PStr] it is held in the
    generalised three-byte form, ED A0..BF 80..BF, which no encodable
    character uses. *)
#[warnings="-register-all"] Inductive PyVal : Type :=
| PNone
| PBool (b : bool)
| PInt (n : Z)
| PFloat (float_repr : string)
| PStr (s : string)
| PList (items : list PyVal)
| PDict (entries : list (string * PyVal)).

(** The exceptions the operations below raise. *)
Inductive PyExn : Type :=
| TypeError
| AttributeError
| KeyError
| ValueError
| UnicodeEncodeError.

Definition nl : string := String "010"%char EmptyString.
Definition dquote : ascii := "034"%char.
Definition squote : ascii := "039"%char.
Definition backslash : ascii := "092"%char.
Definition dq : string := String dquote EmptyString.

(** [d.get(key)] on the entries of a dict. *)
Fixpoint dict_get (key : string) (d : list (string * PyVal)) : option PyVal :=
  match d with
  | [] => None
  | (k, v) :: d' => if String.eqb k key then Some v else dict_get key d'
  end.

Definition dict_mem (key : string) (d : list (string * PyVal)) : bool :=
  match dict_get key d with Some _ => true | None => false end.

(** [isinstance(v, str)] *)
Definition isinstance_str (v : PyVal) : bool :=
  match v with PStr _ => true | _ => false end.

(** [v == s] for a string literal [s]. *)
Definition eq_str (v : PyVal) (s : string) : bool :=
  match v with PStr t => String.eqb t s | _ => false end.

(** [p in s] on two strings. *)
Fixpoint is_substring (p s : string) : bool :=
  prefix p s ||
  match s with
  | EmptyString => false
  | String _ s' => is_substring p s'
  end.

(** Truth value testing, as [if v:] does it. *)
Definition truthy (v : PyVal) : bool :=
  match v with
  | PNone => false
  | PBool b => b
  | PInt n => negb (Z.eqb n 0)
  | PFloat r => negb (String.eqb r "0.0" || String.eqb r "-0.0")
  | PStr s => negb (String.eqb s EmptyString)
  | PList l => match l with [] => false | _ => true end
  | PDict d => match d with [] => false | _ => true end
  end.

(** *** [repr] and [str] *)

Definition hex_digit (n : nat) : ascii :=
  if Nat.ltb n 10 then ascii_of_nat (48 + n) else ascii_of_nat (87 + n).

Fixpoint has_char (c : ascii) (s : string) : bool :=
  match s with
  | EmptyString => false
  | String a s' => Ascii.eqb a c || has_char c s'
  end.

(** The code points from U+0080 on for which [str.isprintable()] is false,
    as inclusive ranges: the categories Cc, Cf, Cs, Co, Cn, Zl, Zp and Zs of
    the Unicode data base 14.0.0, the one CPython 3.11 carries. *)
Definition nonprintable_ranges : list (N * N) :=
  [(128, 160); (173, 173); (888, 889); (896, 899); (907, 907); (909, 909);
   (930, 930); (1328, 1328); (1367, 1368); (1419, 1420); (1424, 1424);
   (1480, 1487); (1515, 1518); (1525, 1541); (1564, 1564); (1757, 1757);
   (1806, 1807); (1867, 1868); (1970, 1983); (2043, 2044); (2094, 2095);
   (2111, 2111); (2140, 2141); (2143, 2143); (2155, 2159); (2191, 2199);
   (2274, 2274); (2436, 2436); (2445, 2446); (2449, 2450); (2473, 2473);
   (2481, 2481); (2483, 2485); (2490, 2491); (2501, 2502); (2505, 2506);
   (2511, 2518); (2520, 2523); (2526, 2526); (2532, 2533); (2559, 2560);
   (2564, 2564); (2571, 2574); (2577, 2578); (2601, 2601); (2609, 2609);
   (2612, 2612); (2615, 2615); (2618, 2619); (2621, 2621); (2627, 2630);
   (2633, 2634); (2638, 2640); (2642, 2648); (2653, 2653); (2655, 2661);
   (2679, 2688); (2692, 2692); (2702, 2702); (2706, 2706); (2729, 2729);
   (2737, 2737); (2740, 2740); (2746, 2747); (2758, 2758); (2762, 2762);
   (2766, 2767); (2769, 2783); (2788, 2789); (2802, 2808); (2816, 2816);
   (2820, 2820); (2829, 2830); (2833, 2834); (2857, 2857); (2865, 2865);
   (2868, 2868); (2874, 2875); (2885, 2886); (2889, 2890); (2894, 2900);
   (2904, 2907); (2910, 2910); (2916, 2917); (2936, 2945); (2948, 2948);
   (2955, 2957); (2961, 2961); (2966, 2968); (2971, 2971); (2973, 2973);
   (2976, 2978); (2981, 2983); (2987, 2989); (3002, 3005); (3011, 3013);
   (3017, 3017); (3022, 3023); (3025, 3030); (3032, 3045); (3067, 3071);
   (3085, 3085); (3089, 3089); (3113, 3113); (3130, 3131); (3141, 3141);
   (3145, 3145); (3150, 3156); (3159, 3159); (3163, 3164); (3166, 3167);
   (3172, 3173); (3184, 3190); (3213, 3213); (3217, 3217); (3241, 3241);
   (3252, 3252); (3258, 3259); (3269, 3269); (3273, 3273); (3278, 3284);
   (3287, 3292); (3295, 3295); (3300, 3301); (3312, 3312); (3315, 3327);
   (3341, 3341); (3345, 3345); (3397, 3397); (3401, 3401); (3408, 3411);
   (3428, 3429); (3456, 3456); (3460, 3460); (3479, 3481); (3506, 3506);
   (3516, 3516); (3518, 3519); (3527, 3529); (3531, 3534); (3541, 3541);
   (3543, 3543); (3552, 3557); (3568, 3569); (3573, 3584); (3643, 3646);
   (3676, 3712); (3715, 3715); (3717, 3717); (3723, 3723); (3748, 3748);
   (3750, 3750); (3774, 3775); (3781, 3781); (3783, 3783); (3790, 3791);
   (3802, 3803); (3808, 3839); (3912, 3912); (3949, 3952); (3992, 3992);
   (4029, 4029); (4045, 4045); (4059, 4095); (4294, 4294); (4296, 4300);
   (4302, 4303); (4681, 4681); (4686, 4687); (4695, 4695); (4697, 4697);
   (4702, 4703); (4745, 4745); (4750, 4751); (4785, 4785); (4790, 4791);
   (4799, 4799); (4801, 4801); (4806, 4807); (4823, 4823); (4881, 4881);
   (4886, 4887); (4955, 4956); (4989, 4991); (5018, 5023); (5110, 5111);
   (5118, 5119); (5760, 5760); (5789, 5791); (5881, 5887); (5910, 5918);
   (5943, 5951); (5972, 5983); (5997, 5997); (6001, 6001); (6004, 6015);
   (6110, 6111); (6122, 6127); (6138, 6143); (6158, 6158); (6170, 6175);
   (6265, 6271); (6315, 6319); (6390, 6399); (6431, 6431); (6444, 6447);
   (6460, 6463); (6465, 6467); (6510, 6511); (6517, 6527); (6572, 6575);
   (6602, 6607); (6619, 6621); (6684, 6685); (6751, 6751); (6781, 6782);
   (6794, 6799); (6810, 6815); (6830, 6831); (6863, 6911); (6989, 6991);
   (7039, 7039); (7156, 7163); (7224, 7226); (7242, 7244); (7305, 7311);
   (7355, 7356); (7368, 7375); (7419, 7423); (7958, 7959); (7966, 7967);
   (8006, 8007); (8014, 8015); (8024, 8024); (8026, 8026); (8028, 8028);
   (8030, 8030); (8062, 8063); (8117, 8117); (8133, 8133); (8148, 8149);
   (8156, 8156); (8176, 8177); (8181, 8181); (8191, 8207); (8232, 8239);
   (8287, 8303); (8306, 8307); (8335, 8335); (8349, 8351); (8385, 8399);
   (8433, 8447); (8588, 8591); (9255, 9279); (9291, 9311); (11124, 11125);
   (11158, 11158); (11508, 11512); (11558, 11558); (11560, 11564);
   (11566, 11567); (11624, 11630); (11633, 11646); (11671, 11679);
   (11687, 11687); (11695, 11695); (11703, 11703); (11711, 11711);
   (11719, 11719); (11727, 11727); (11735, 11735); (11743, 11743);
   (11870, 11903); (11930, 11930); (12020, 12031); (12246, 12271);
   (12284, 12288); (12352, 12352); (12439, 12440); (12544, 12548);
   (12592, 12592); (12687, 12687); (12772, 12783); (12831, 12831);
   (42125, 42127); (42183, 42191); (42540, 42559); (42744, 42751);
   (42955, 42959); (42962, 42962); (42964, 42964); (42970, 42993);
   (43053, 43055); (43066, 43071); (43128, 43135); (43206, 43213);
   (43226, 43231); (43348, 43358); (43389, 43391); (43470, 43470);
   (43482, 43485); (43519, 43519); (43575, 43583); (43598, 43599);
   (43610, 43611); (43715, 43738); (43767, 43776); (43783, 43784);
   (43791, 43792); (43799, 43807); (43815, 43815); (43823, 43823);
   (43884, 43887); (44014, 44015); (44026, 44031); (55204, 55215);
   (55239, 55242); (55292, 63743); (64110, 64111); (64218, 64255);
   (64263, 64274); (64280, 64284); (64311, 64311); (64317, 64317);
   (64319, 64319); (64322, 64322); (64325, 64325); (64451, 64466);
   (64912, 64913); (64968, 64974); (64976, 65007); (65050, 65055);
   (65107, 65107); (65127, 65127); (65132, 65135); (65141, 65141);
   (65277, 65280); (65471, 65473); (65480, 65481); (65488, 65489);
   (65496, 65497); (65501, 65503); (65511, 65511); (65519, 65531);
   (65534, 65535); (65548, 65548); (65575, 65575); (65595, 65595);
   (65598, 65598); (65614, 65615); (65630, 65663); (65787, 65791);
   (65795, 65798); (65844, 65846); (65935, 65935); (65949, 65951);
   (65953, 65999); (66046, 66175); (66205, 66207); (66257, 66271);
   (66300, 66303); (66340, 66348); (66379, 66383); (66427, 66431);
   (66462, 66462); (66500, 66503); (66518, 66559); (66718, 66719);
   (66730, 66735); (66772, 66775); (66812, 66815); (66856, 66863);
   (66916, 66926); (66939, 66939); (66955, 66955); (66963, 66963);
   (66966, 66966); (66978, 66978); (66994, 66994); (67002, 67002);
   (67005, 67071); (67383, 67391); (67414, 67423); (67432, 67455);
   (67462, 67462); (67505, 67505); (67515, 67583); (67590, 67591);
   (67593, 67593); (67638, 67638); (67641, 67643); (67645, 67646);
   (67670, 67670); (67743, 67750); (67760, 67807); (67827, 67827);
   (67830, 67834); (67868, 67870); (67898, 67902); (67904, 67967);
   (68024, 68027); (68048, 68049); (68100, 68100); (68103, 68107);
   (68116, 68116); (68120, 68120); (68150, 68151); (68155, 68158);
   (68169, 68175); (68185, 68191); (68256, 68287); (68327, 68330);
   (68343, 68351); (68406, 68408); (68438, 68439); (68467, 68471);
   (68498, 68504); (68509, 68520); (68528, 68607); (68681, 68735);
   (68787, 68799); (68851, 68857); (68904, 68911); (68922, 69215);
   (69247, 69247); (69290, 69290); (69294, 69295); (69298, 69375);
   (69416, 69423); (69466, 69487); (69514, 69551); (69580, 69599);
   (69623, 69631); (69710, 69713); (69750, 69758); (69821, 69821);
   (69827, 69839); (69865, 69871); (69882, 69887); (69941, 69941);
   (69960, 69967); (70007, 70015); (70112, 70112); (70133, 70143);
   (70162, 70162); (70207, 70271); (70279, 70279); (70281, 70281);
   (70286, 70286); (70302, 70302); (70314, 70319); (70379, 70383);
   (70394, 70399); (70404, 70404); (70413, 70414); (70417, 70418);
   (70441, 70441); (70449, 70449); (70452, 70452); (70458, 70458);
   (70469, 70470); (70473, 70474); (70478, 70479); (70481, 70486);
   (70488, 70492); (70500, 70501); (70509, 70511); (70517, 70655);
   (70748, 70748); (70754, 70783); (70856, 70863); (70874, 71039);
   (71094, 71095); (71134, 71167); (71237, 71247); (71258, 71263);
   (71277, 71295); (71354, 71359); (71370, 71423); (71451, 71452);
   (71468, 71471); (71495, 71679); (71740, 71839); (71923, 71934);
   (71943, 71944); (71946, 71947); (71956, 71956); (71959, 71959);
   (71990, 71990); (71993, 71994); (72007, 72015); (72026, 72095);
   (72104, 72105); (72152, 72153); (72165, 72191); (72264, 72271);
   (72355, 72367); (72441, 72703); (72713, 72713); (72759, 72759);
   (72774, 72783); (72813, 72815); (72848, 72849); (72872, 72872);
   (72887, 72959); (72967, 72967); (72970, 72970); (73015, 73017);
   (73019, 73019); (73022, 73022); (73032, 73039); (73050, 73055);
   (73062, 73062); (73065, 73065); (73103, 73103); (73106, 73106);
   (73113, 73119); (73130, 73439); (73465, 73647); (73649, 73663);
   (73714, 73726); (74650, 74751); (74863, 74863); (74869, 74879);
   (75076, 77711); (77811, 77823); (78895, 82943); (83527, 92159);
   (92729, 92735); (92767, 92767); (92778, 92781); (92863, 92863);
   (92874, 92879); (92910, 92911); (92918, 92927); (92998, 93007);
   (93018, 93018); (93026, 93026); (93048, 93052); (93072, 93759);
   (93851, 93951); (94027, 94030); (94088, 94094); (94112, 94175);
   (94181, 94191); (94194, 94207); (100344, 100351); (101590, 101631);
   (101641, 110575); (110580, 110580); (110588, 110588); (110591, 110591);
   (110883, 110927); (110931, 110947); (110952, 110959); (111356, 113663);
   (113771, 113775); (113789, 113791); (113801, 113807); (113818, 113819);
   (113824, 118527); (118574, 118575); (118599, 118607); (118724, 118783);
   (119030, 119039); (119079, 119080); (119155, 119162); (119275, 119295);
   (119366, 119519); (119540, 119551); (119639, 119647); (119673, 119807);
   (119893, 119893); (119965, 119965); (119968, 119969); (119971, 119972);
   (119975, 119976); (119981, 119981); (119994, 119994); (119996, 119996);
   (120004, 120004); (120070, 120070); (120075, 120076); (120085, 120085);
   (120093, 120093); (120122, 120122); (120127, 120127); (120133, 120133);
   (120135, 120137); (120145, 120145); (120486, 120487); (120780, 120781);
   (121484, 121498); (121504, 121504); (121520, 122623); (122655, 122879);
   (122887, 122887); (122905, 122906); (122914, 122914); (122917, 122917);
   (122923, 123135); (123181, 123183); (123198, 123199); (123210, 123213);
   (123216, 123535); (123567, 123583); (123642, 123646); (123648, 124895);
   (124903, 124903); (124908, 124908); (124911, 124911); (124927, 124927);
   (125125, 125126); (125143, 125183); (125260, 125263); (125274, 125277);
   (125280, 126064); (126133, 126208); (126270, 126463); (126468, 126468);
   (126496, 126496); (126499, 126499); (126501, 126502); (126504, 126504);
   (126515, 126515); (126520, 126520); (126522, 126522); (126524, 126529);
   (126531, 126534); (126536, 126536); (126538, 126538); (126540, 126540);
   (126544, 126544); (126547, 126547); (126549, 126550); (126552, 126552);
   (126554, 126554); (126556, 126556); (126558, 126558); (126560, 126560);
   (126563, 126563); (126565, 126566); (126571, 126571); (126579, 126579);
   (126584, 126584); (126589, 126589); (126591, 126591); (126602, 126602);
   (126620, 126624); (126628, 126628); (126634, 126634); (126652, 126703);
   (126706, 126975); (127020, 127023); (127124, 127135); (127151, 127152);
   (127168, 127168); (127184, 127184); (127222, 127231); (127406, 127461);
   (127491, 127503); (127548, 127551); (127561, 127567); (127570, 127583);
   (127590, 127743); (128728, 128732); (128749, 128751); (128765, 128767);
   (128884, 128895); (128985, 128991); (129004, 129007); (129009, 129023);
   (129036, 129039); (129096, 129103); (129114, 129119); (129160, 129167);
   (129198, 129199); (129202, 129279); (129620, 129631); (129646, 129647);
   (129653, 129655); (129661, 129663); (129671, 129679); (129709, 129711);
   (129723, 129727); (129734, 129743); (129754, 129759); (129768, 129775);
   (129783, 129791); (129939, 129939); (129995, 130031); (130042, 131071);
   (173792, 173823); (177977, 177983); (178206, 178207); (183970, 183983);
   (191457, 194559); (195102, 196607); (201547, 917759); (918000, 1114111)]%N.

Definition isprintable (cp : N) : bool :=
  negb (existsb (fun r => N.leb (fst r) cp && N.leb cp (snd r)) nonprintable_ranges).

(** [n] in lower-case hexadecimal, on [width] digits. *)
Fixpoint hex_fixed (width : nat) (n : N) : string :=
  match width with
  | O => EmptyString
  | S w =>
      hex_fixed w (N.div n 16)
      ++ String (hex_digit (N.to_nat (N.modulo n 16))) EmptyString
  end.

(** A continuation byte of a UTF-8 sequence. *)
Definition is_cont (c : ascii) : bool :=
  let n := N_of_ascii c in N.leb 128 n && N.leb n 191.

(** The six bits a continuation byte carries. *)
Definition cont_bits (c : ascii) : N := (N_of_ascii c - 128)%N.

(** What [repr] writes for the character [cp], from U+0080 on, whose bytes
    are [bytes]: the character itself when it is printable, otherwise the
    shortest of the escapes [\xhh], [\uhhhh] and [\Uhhhhhhhh]. *)
Definition escape_code_point (cp : N) (bytes : string) : string :=
  if isprintable cp then bytes
  else if N.ltb cp 256 then String backslash (String "x" (hex_fixed 2 cp))
  else if N.ltb cp 65536 then String backslash (String "u" (hex_fixed 4 cp))
  else String backslash (String "U" (hex_fixed 8 cp)).

(** The body of [repr(s)] between the quotes, for the quote [q] chosen.  A
    byte that does not start a sequence of the encoding stands for no
    character of a [str]; it is left as it is. *)
Fixpoint escape_str (q : ascii) (s : string) : string :=
  match s with
  | EmptyString => EmptyString
  | String c s' =>
      let n := nat_of_ascii c in
      if Nat.ltb n 128 then
        (if Ascii.eqb c q || Ascii.eqb c backslash then String backslash (String c EmptyString)
         else if Nat.eqb n 9 then String backslash "t"
         else if Nat.eqb n 10 then String backslash "n"
         else if Nat.eqb n 13 then String backslash "r"
         else if Nat.ltb n 32 || Nat.eqb n 127 then
           String backslash (String "x" (String (hex_digit (Nat.div n 16))
                                           (String (hex_digit (Nat.modulo n 16)) EmptyString)))
         else String c EmptyString)
        ++ escape_str q s'
      else
        match s' with
        | String b1 s1 =>
            if Nat.leb 194 n && Nat.leb n 223 && is_cont b1 then
              escape_code_point ((N.of_nat n - 192) * 64 + cont_bits b1)
                                (String c (String b1 EmptyString))
              ++ escape_str q s1
            else
              match s1 with
              | String b2 s2 =>
                  if Nat.leb 224 n && Nat.leb n 239 && is_cont b1 && is_cont b2 then
                    escape_code_point
                      ((N.of_nat n - 224) * 4096 + cont_bits b1 * 64 + cont_bits b2)
                      (String c (String b1 (String b2 EmptyString)))
                    ++ escape_str q s2
                  else
                    match s2 with
                    | String b3 s3 =>
                        if Nat.leb 240 n && Nat.leb n 244
                           && is_cont b1 && is_cont b2 && is_cont b3 then
                          escape_code_point
                            ((N.of_nat n - 240) * 262144 + cont_bits b1 * 4096
                             + cont_bits b2 * 64 + cont_bits b3)
                            (String c (String b1 (String b2 (String b3 EmptyString))))
                          ++ escape_str q s3
                        else String c (escape_str q s')
                    | EmptyString => String c (escape_str q s')
                    end
              | EmptyString => String c (escape_str q s')
              end
        | EmptyString => String c EmptyString
        end
  end.

(** The text holds a lone surrogate: the byte ED before a byte from A0 on. *)
Fixpoint has_lone_surrogate (s : string) : bool :=
  match s with
  | EmptyString => false
  | String c s' =>
      match s' with
      | String b _ =>
          (Nat.eqb (nat_of_ascii c) 237 && Nat.leb 160 (nat_of_ascii b))
          || has_lone_surrogate s'
      | EmptyString => false
      end
  end.

(** [repr] of a [str]: single quotes, unless the text holds a single quote
    and no double quote. *)
Definition repr_str (s : string) : string :=
  let q := if has_char squote s && negb (has_char dquote s) then dquote else squote in
  String q (escape_str q s) ++ String q EmptyString.

Definition repr_int (n : Z) : string := NilZero.string_of_int (Z.to_int n).

Fixpoint join (sep : string) (l : list string) : string :=
  match l with
  | [] => EmptyString
  | [x] => x
  | x :: l' => x ++ sep ++ join sep l'
  end.

Fixpoint repr (v : PyVal) : string :=
  match v with
  | PNone => "None"
  | PBool true => "True"
  | PBool false => "False"
  | PInt n => repr_int n
  | PFloat r => r
  | PStr s => repr_str s
  | PList l => "[" ++ join ", " (map repr l) ++ "]"
  | PDict d =>
      "{" ++ join ", " (map (fun kv => repr_str (fst kv) ++ ": " ++ repr (snd kv)) d) ++ "}"
  end.

(** [str(v)], which is what an f-string field [{v}] formats to. *)
Definition str (v : PyVal) : string :=
  match v with
  | PStr s => s
  | _ => repr v
  end.

(** [range(n)] *)
Definition range (n : nat) : list Z := map Z.of_nat (seq 0 n).

End Py.


(** ** JSON texts (RFC 8259)

    The newline-delimited stream a client of [StreamingResponse] reads is a
    sequence of lines, each of which should be a JSON text.  The reader
    below decides that: it is a recursive-descent parser of the RFC 8259
    grammar, with fuel for the nesting of values. *)

Module Json.

(** A number keeps its lexeme; a string keeps its characters with the
    two-character escapes decoded (a [\uXXXX] escape is checked and kept as
    written). *)
#[warnings="-register-all"] Inductive value : Type :=
| JNull
| JBool (b : bool)
| JNumber (lexeme : string)
| JString (s : string)
| JArray (items : list value)
| JObject (members : list (string * value)).

Inductive Parse (A : Type) : Type :=
| Parsed (a : A) (rest : string)
| SyntaxError
| OutOfFuel.
Arguments Parsed {A} a rest.
Arguments SyntaxError {A}.
Arguments OutOfFuel {A}.

Definition pmap {A B : Type} (f : A -> B) (p : Parse A) : Parse B :=
  match p with
  | Parsed a r => Parsed (f a) r
  | SyntaxError => SyntaxError
  | OutOfFuel => OutOfFuel
  end.

Definition is_ws (c : ascii) : bool :=
  let n := nat_of_ascii c in
  Nat.eqb n 32 || Nat.eqb n 9 || Nat.eqb n 10 || Nat.eqb n 13.

Fixpoint skip_ws (s : string) : string :=
  match s with
  | EmptyString => EmptyString
  | String c s' => if is_ws c then skip_ws s' else s
  end.

Definition is_digit (c : ascii) : bool :=
  let n := nat_of_ascii c in Nat.leb 48 n && Nat.leb n 57.

Definition is_hex (c : ascii) : bool :=
  let n := nat_of_ascii c in
  is_digit c || (Nat.leb 65 n && Nat.leb n 70) || (Nat.leb 97 n && Nat.leb n 102).

Fixpoint take_digits (s : string) : string * string :=
  match s with
  | EmptyString => (EmptyString, EmptyString)
  | String c s' =>
      if is_digit c then let (d, r) := take_digits s' in (String c d, r)
      else (EmptyString, s)
  end.

Definition starts_with (c : ascii) (s : string) : option string :=
  match s with
  | String a r => if Ascii.eqb a c then Some r else None
  | EmptyString => None
  end.

Fixpoint strip_prefix (p s : string) : option string :=
  match p with
  | EmptyString => Some s
  | String a p' =>
      match s with
      | String b s' => if Ascii.eqb a b then strip_prefix p' s' else None
      | EmptyString => None
      end
  end.

(** number = [ minus ] int [ frac ] [ exp ] *)
Definition parse_exp (lex s : string) : Parse string :=
  match s with
  | String e r =>
      if Ascii.eqb e "e" || Ascii.eqb e "E" then
        let (sign, r1) :=
          match r with
          | String g r' =>
              if Ascii.eqb g "+" || Ascii.eqb g "-" then (String g EmptyString, r')
              else (EmptyString, r)
          | EmptyString => (EmptyString, r)
          end in
        match take_digits r1 with
        | (EmptyString, _) => SyntaxError
        | (ds, r2) => Parsed (lex ++ String e sign ++ ds) r2
        end
      else Parsed lex s
  | EmptyString => Parsed lex s
  end.

Definition parse_frac (lex s : string) : Parse string :=
  match starts_with "." s with
  | Some r =>
      match take_digits r with
      | (EmptyString, _) => SyntaxError
      | (ds, r1) => parse_exp (lex ++ "." ++ ds) r1
      end
  | None => parse_exp lex s
  end.

Definition parse_number (s : string) : Parse string :=
  let (sign, s1) :=
    match starts_with "-" s with
    | Some r => ("-", r)
    | None => (EmptyString, s)
    end in
  match take_digits s1 with
  | (EmptyString, _) => SyntaxError
  | (String d ds, r) =>
      if Ascii.eqb d "0" && negb (String.eqb ds EmptyString) then SyntaxError
      else parse_frac (sign ++ String d ds) r
  end.

Definition unescape (e : ascii) : option ascii :=
  if Ascii.eqb e Py.dquote then Some Py.dquote
  else if Ascii.eqb e Py.backslash then Some Py.backslash
  else if Ascii.eqb e "/" then Some "/"%char
  else if Ascii.eqb e "b" then Some "008"%char
  else if Ascii.eqb e "f" then Some "012"%char
  else if Ascii.eqb e "n" then Some "010"%char
  else if Ascii.eqb e "r" then Some "013"%char
  else if Ascii.eqb e "t" then Some "009"%char
  else None.

(** The characters of a string, after its opening quote. *)
Fixpoint parse_chars (s : string) : Parse string :=
  match s with
  | EmptyString => SyntaxError
  | String c s' =>
      if Ascii.eqb c Py.dquote then Parsed EmptyString s'
      else if Ascii.eqb c Py.backslash then
        match s' with
        | EmptyString => SyntaxError
        | String e s'' =>
            if Ascii.eqb e "u" then
              match s'' with
              | String h1 (String h2 (String h3 (String h4 r))) =>
                  if is_hex h1 && is_hex h2 && is_hex h3 && is_hex h4 then
                    pmap (fun t => String c (String e (String h1 (String h2
                                     (String h3 (String h4 t)))))) (parse_chars r)
                  else SyntaxError
              | _ => SyntaxError
              end
            else
              match unescape e with
              | Some d => pmap (String d) (parse_chars s'')
              | None => SyntaxError
              end
        end
      else if Nat.ltb (nat_of_ascii c) 32 then SyntaxError
      else pmap (String c) (parse_chars s')
  end.

Definition parse_literal (s : string) : Parse value :=
  match strip_prefix "true" s with
  | Some r => Parsed (JBool true) r
  | None =>
      match strip_prefix "false" s with
      | Some r => Parsed (JBool false) r
      | None =>
          match strip_prefix "null" s with
          | Some r => Parsed JNull r
          | None => SyntaxError
          end
      end
  end.

Fixpoint parse_value (fuel : nat) (s : string) : Parse value :=
  match fuel with
  | O => OutOfFuel
  | S fuel' =>
      match skip_ws s with
      | EmptyString => SyntaxError
      | String c r =>
          if Ascii.eqb c "{" then
            match starts_with "}" (skip_ws r) with
            | Some r' => Parsed (JObject []) r'
            | None => parse_members fuel' r []
            end
          else if Ascii.eqb c "[" then
            match starts_with "]" (skip_ws r) with
            | Some r' => Parsed (JArray []) r'
            | None => parse_elements fuel' r []
            end
          else if Ascii.eqb c Py.dquote then pmap JString (parse_chars r)
          else if is_digit c || Ascii.eqb c "-" then pmap JNumber (parse_number (String c r))
          else parse_literal (String c r)
      end
  end

with parse_elements (fuel : nat) (s : string) (acc : list value) : Parse value :=
  match fuel with
  | O => OutOfFuel
  | S fuel' =>
      match parse_value fuel' s with
      | Parsed v r =>
          match skip_ws r with
          | EmptyString => SyntaxError
          | String c r' =>
              if Ascii.eqb c "," then parse_elements fuel' r' (v :: acc)
              else if Ascii.eqb c "]" then Parsed (JArray (rev (v :: acc))) r'
              else SyntaxError
          end
      | SyntaxError => SyntaxError
      | OutOfFuel => OutOfFuel
      end
  end

with parse_members (fuel : nat) (s : string) (acc : list (string * value)) : Parse value :=
  match fuel with
  | O => OutOfFuel
  | S fuel' =>
      match starts_with Py.dquote (skip_ws s) with
      | None => SyntaxError
      | Some r =>
          match parse_chars r with
          | Parsed k r1 =>
              match starts_with ":" (skip_ws r1) with
              | None => SyntaxError
              | Some r2 =>
                  match parse_value fuel' r2 with
                  | Parsed v r3 =>
                      match skip_ws r3 with
                      | EmptyString => SyntaxError
                      | String c r4 =>
                          if Ascii.eqb c "," then parse_members fuel' r4 ((k, v) :: acc)
                          else if Ascii.eqb c "}" then Parsed (JObject (rev ((k, v) :: acc))) r4
                          else SyntaxError
                      end
                  | SyntaxError => SyntaxError
                  | OutOfFuel => OutOfFuel
                  end
              end
          | SyntaxError => SyntaxError
          | OutOfFuel => OutOfFuel
          end
      end
  end.

(** A JSON text is one value between optional white space. *)
Definition loads (s : string) : Parse value :=
  match parse_value (2 * String.length s + 2) s with
  | Parsed v r =>
      match skip_ws r with
      | EmptyString => Parsed v EmptyString
      | String _ _ => SyntaxError
      end
  | SyntaxError => SyntaxError
  | OutOfFuel => OutOfFuel
  end.

(** [chunk] is one line: some text without a line feed, then a line feed. *)
Fixpoint strip_line (chunk : string) : option string :=
  match chunk with
  | EmptyString => None
  | String c s' =>
      if Nat.eqb (nat_of_ascii c) 10 then
        match s' with EmptyString => Some EmptyString | String _ _ => None end
      else option_map (String c) (strip_line s')
  end.

(** The frame test of a newline-delimited JSON stream: the chunk is one line
    and that line is a JSON object. *)
Definition is_json_object_line (chunk : string) : bool :=
  match strip_line chunk with
  | Some text =>
      match loads text with
      | Parsed (JObject _) _ => true
      | _ => false
      end
  | None => false
  end.

End Json.


(** ** Effects: log records and exceptions *)

Import Py.

Inductive Exc (A : Type) : Type :=
| Return (a : A)
| Raise (e : PyExn).
Arguments Return {A} a.
Arguments Raise {A} e.

Inductive LogLevel : Type := ERROR | INFO.

Record LogRecord : Type := mkLog { levelname : LogLevel; message : string }.

(** A computation yields the records it logged, in order, and either a
    value or the exception that ended it. *)
Definition Eff (A : Type) : Type := (list LogRecord * Exc A)%type.

Definition ret {A : Type} (a : A) : Eff A := ([], Return a).

Definition raise {A : Type} (e : PyExn) : Eff A := ([], Raise e).

Definition bind {A B : Type} (m : Eff A) (k : A -> Eff B) : Eff B :=
  match m with
  | (l, Return a) => let (l', r) := k a in ((l ++ l')%list, r)
  | (l, Raise e) => (l, Raise e)
  end.

Notation "x <- m ;; k" := (bind m (fun x => k))
  (at level 61, m at next level, right associativity).
Notation "m ;; k" := (bind m (fun _ => k))
  (at level 61, right associativity).

Definition logger_error (m : string) : Eff unit := ([mkLog ERROR m], Return tt).
Definition logger_info (m : string) : Eff unit := ([mkLog INFO m], Return tt).

(** *** The operations of Python the handlers apply to a parsed body *)

(** [item in container], for a string [item]: key membership on a dict,
    element equality on a list, substring on a str; the other values are
    not containers. *)
Definition contains (item : string) (container : PyVal) : Eff bool :=
  match container with
  | PDict d => ret (dict_mem item d)
  | PList l => ret (existsb (fun v => eq_str v item) l)
  | PStr s => ret (is_substring item s)
  | _ => raise TypeError
  end.

(** [obj.get(key, default)]: only a dict has the attribute. *)
Definition get (obj : PyVal) (key : string) (default : PyVal) : Eff PyVal :=
  match obj with
  | PDict d => ret (match dict_get key d with Some v => v | None => default end)
  | _ => raise AttributeError
  end.

(** [obj[key]] for a string [key]. *)
Definition getitem (obj : PyVal) (key : string) : Eff PyVal :=
  match obj with
  | PDict d => match dict_get key d with Some v => ret v | None => raise KeyError end
  | _ => raise TypeError
  end.

(** [s.encode()]: a str is held as its UTF-8 bytes. *)
Definition encode (s : string) : string := s.

(** ** The application *)

(** What an async generator does, step by step: it yields a chunk of bytes
    or suspends in [asyncio.sleep] (the delay is in milliseconds). *)
Inductive GenEvent : Type :=
| Yield (chunk : string)
| Sleep (millis : Z).

Inductive Response : Type :=
| JSONResponse (content : PyVal) (status_code : Z)
| StreamingResponse (content : list GenEvent) (media_type : string).

(** [json.dumps(content, allow_nan=False)] succeeds: no float of the
    content is [inf], [-inf] or [nan]. *)
Fixpoint json_compliant (v : PyVal) : bool :=
  match v with
  | PFloat r => negb (String.eqb r "inf" || String.eqb r "-inf" || String.eqb r "nan")
  | PList l => forallb json_compliant l
  | PDict d => forallb (fun kv => json_compliant (snd kv)) d
  | _ => true
  end.

(** The text [json.dumps(content, ensure_ascii=False)] gives can be encoded
    as UTF-8: no string and no key of the content holds a lone surrogate. *)
Fixpoint utf8_encodable (v : PyVal) : bool :=
  match v with
  | PStr s => negb (has_lone_surrogate s)
  | PList l => forallb utf8_encodable l
  | PDict d =>
      forallb (fun kv => negb (has_lone_surrogate (fst kv)) && utf8_encodable (snd kv)) d
  | _ => true
  end.

(** The exception [JSONResponse.render] ends in, if any: [json.dumps] runs
    over the whole content first, then the text is encoded. *)
Definition render_error (content : PyVal) : option PyExn :=
  if negb (json_compliant content) then Some ValueError
  else if negb (utf8_encodable content) then Some UnicodeEncodeError
  else None.

(** The call [JSONResponse(content, status_code=...)]: the constructor
    renders the content at once, so it raises what the rendering raises. *)
Definition new_JSONResponse (content : PyVal) (status_code : Z) : Eff Response :=
  match render_error content with
  | Some e => raise e
  | None => ret (JSONResponse content status_code)
  end.

(** The outcome of [await request.json()]: the parsed body, or an
    exception, of which the handler reads nothing but [str(e)]. *)
Inductive JsonResult : Type :=
| Body (body : PyVal)
| Failure (str_e : string).

(** The request, as far as the handler reads it. *)
Record Request : Type := mkRequest { json : JsonResult }.

Definition AGENT_CARD : PyVal :=
  PDict [("id", PStr "pyagent1");
         ("name", PStr "Python Agent");
         ("version", PStr "0.1.0");
         ("description", PStr "Minimal Python A2A agent");
         ("capabilities", PList [PStr "task_request"; PStr "agent_discovery"]);
         ("endpoints", PDict [("a2a", PStr "/api/a2a"); ("agent_card", PStr "/api/agent_card")]);
         ("authentication", PNone)].

(** The module's global bindings that outlive a request. *)
Record Globals : Type := mkGlobals { g_AGENT_CARD : PyVal }.

Definition module_globals : Globals := {| g_AGENT_CARD := AGENT_CARD |}.

(** [GET /api/agent_card] *)
Definition get_agent_card (g : Globals) : Globals * PyVal :=
  (g, g_AGENT_CARD g).

(** [POST /api/agent_card]; FastAPI has checked that the body is a dict. *)
Definition register_agent_card (g : Globals) (card : list (string * PyVal)) : Globals * PyVal :=
  (g, PDict [("status", PStr "ok"); ("card", PDict card)]).

Definition stream_task_progress : list GenEvent :=
  (flat_map
     (fun i =>
        [Yield (encode (str (PDict [("type", PStr "task_progress");
                                    ("progress", PInt (i * 20))]) ++ nl));
         Sleep 500])
     (range 5)
   ++ [Yield ("{" ++ dq ++ "type" ++ dq ++ ": " ++ dq ++ "result" ++ dq ++ ", "
              ++ dq ++ "payload" ++ dq ++ ": {" ++ dq ++ "result" ++ dq ++ ": "
              ++ dq ++ "done" ++ dq ++ "}}" ++ nl)])%list.

Definition chunk_stream : list GenEvent :=
  (flat_map
     (fun i =>
        let chunk := PDict [("type", PStr "task_chunk");
                            ("chunk", PStr ("partial_" ++ str (PInt i)))] in
        [Yield (encode (str chunk ++ nl)); Sleep 300])
     (range 3)
   ++ (let result := PDict [("type", PStr "result");
                            ("payload", PDict [("result", PStr "final from chunk")])] in
       [Yield (encode (str result ++ nl))]))%list.

(** [POST /api/a2a] *)
Definition a2a_endpoint (request : Request) : Eff Response :=
  match json request with
  | Failure str_e =>
      logger_error ("Failed to parse JSON: " ++ str_e) ;;
      new_JSONResponse (PDict [("status", PStr "error");
                               ("error", PStr "Invalid JSON payload")]) 400
  | Body body =>
      invalid <- (present <- contains "type" body ;;
                  if negb present then ret true
                  else t <- get body "type" PNone ;; ret (negb (isinstance_str t))) ;;
      if (invalid : bool) then
        logger_error ("Missing or invalid 'type' field in message: " ++ str body) ;;
        new_JSONResponse (PDict [("status", PStr "error");
                                 ("error", PStr "Missing or invalid 'type' field")]) 400
      else
        msg_type <- getitem body "type" ;;
        payload <- get body "payload" (PDict []) ;;
        streaming <- (if eq_str msg_type "task_request"
                      then s <- get payload "stream" (PBool false) ;; ret (truthy s)
                      else ret false) ;;
        if (streaming : bool) then
          ret (StreamingResponse stream_task_progress "application/json")
        else if eq_str msg_type "task_chunk" then
          ret (StreamingResponse chunk_stream "application/json")
        else if eq_str msg_type "agent_event" then
          logger_info ("[agent_event] " ++ str payload) ;;
          new_JSONResponse (PDict [("status", PStr "ok");
                                   ("type", PStr "agent_event");
                                   ("event", payload)]) 200
        else
          new_JSONResponse (PDict [("status", PStr "ok");
                                   ("type", msg_type);
                                   ("echo", body)]) 200
  end.

(** The chunks a generator yields, in order: the frames of the stream. *)
Fixpoint frames (g : list GenEvent) : list string :=
  match g with
  | [] => []
  | Yield c :: g' => c :: frames g'
  | Sleep _ :: g' => frames g'
  end.

(** *** The server: a sequence of calls against the module's globals *)

Inductive Call : Type :=
| GET_agent_card
| POST_agent_card (card : list (string * PyVal))
| POST_a2a (request : Request).

Definition handle (g : Globals) (c : Call) : Globals * Eff Response :=
  match c with
  | GET_agent_card =>
      let (g', v) := get_agent_card g in (g', ret (JSONResponse v 200))
  | POST_agent_card card =>
      let (g', v) := register_agent_card g card in (g', ret (JSONResponse v 200))
  | POST_a2a request => (g, a2a_endpoint request)
  end.

Fixpoint serve (g : Globals) (calls : list Call) : Globals * list (Eff Response) :=
  match calls with
  | [] => (g, [])
  | c :: calls' =>
      let (g1, r) := handle g c in
      let (g2, rs) := serve g1 calls' in
      (g2, r :: rs)
  end.

Definition body_of (entries : list (string * PyVal)) : Request :=
  {| json := Body (PDict entries) |}.


(** *** The messages of [test_a2a_interop.py] *)

Definition A2A_MSG : list (string * PyVal) :=
  [("type", PStr "task_request");
   ("sender", PStr "pyagent1");
   ("recipient", PStr "agent1");
   ("payload", PDict [("task_id", PStr "t1"); ("stream", PBool true)])].

Definition chunk_msg : list (string * PyVal) :=
  [("type", PStr "task_chunk");
   ("sender", PStr "pyagent1");
   ("recipient", PStr "agent1");
   ("payload", PDict [("chunk_id", PStr "c1")])].

Definition event_msg : list (string * PyVal) :=
  [("type", PStr "agent_event");
   ("sender", PStr "pyagent1");
   ("recipient", PStr "agent1");
   ("payload", PDict [("event_id", PStr "e1"); ("detail", PStr "test event")])].

Definition invalid_msg1 : list (string * PyVal) :=
  [("sender", PStr "pyagent1"); ("recipient", PStr "agent1"); ("payload", PDict [])].

Definition invalid_msg2 : list (string * PyVal) :=
  [("type", PNone); ("sender", PStr "pyagent1"); ("recipient", PStr "agent1");
   ("payload", PDict [])].

Definition invalid_msg3 : list (string * PyVal) :=
  [("type", PInt 123); ("sender", PStr "pyagent1"); ("recipient", PStr "agent1");
   ("payload", PDict [])].

(** [A2A_MSG] after [A2A_MSG["payload"]["stream"] = False]. *)
Definition A2A_MSG_nostream : list (string * PyVal) :=
  [("type", PStr "task_request");
   ("sender", PStr "pyagent1");
   ("recipient", PStr "agent1");
   ("payload", PDict [("task_id", PStr "t1"); ("stream", PBool false)])].

(** *** The frames and replies the statements below speak of *)

(** The line of a [task_progress] frame with the given progress. *)
Definition task_progress_frame (progress : Z) : string :=
  str (PDict [("type", PStr "task_progress"); ("progress", PInt progress)]) ++ nl.

(** The line of a [task_chunk] frame with the given chunk. *)
Definition task_chunk_frame (chunk : string) : string :=
  str (PDict [("type", PStr "task_chunk"); ("chunk", PStr chunk)]) ++ nl.

(** The JSON text of the frame that ends the progress stream. *)
Definition done_text : string :=
  "{" ++ dq ++ "type" ++ dq ++ ": " ++ dq ++ "result" ++ dq ++ ", "
  ++ dq ++ "payload" ++ dq ++ ": {" ++ dq ++ "result" ++ dq ++ ": "
  ++ dq ++ "done" ++ dq ++ "}}".

(** [body.get("payload", {})] on the entries of the body. *)
Definition payload_of (entries : list (string * PyVal)) : PyVal :=
  match dict_get "payload" entries with
  | Some v => v
  | None => PDict []
  end.

(** The values whose truth value is false. *)
Inductive falsy_value : PyVal -> Prop :=
| falsy_None : falsy_value PNone
| falsy_False : falsy_value (PBool false)
| falsy_zero : falsy_value (PInt 0)
| falsy_float_zero : falsy_value (PFloat "0.0")
| falsy_float_minus_zero : falsy_value (PFloat "-0.0")
| falsy_empty_str : falsy_value (PStr EmptyString)
| falsy_empty_list : falsy_value (PList [])
| falsy_empty_dict : falsy_value (PDict []).

(** [stream] is absent from the payload, or its truth value is false. *)
Definition stream_off (payload : list (string * PyVal)) : Prop :=
  dict_get "stream" payload = None \/
  exists v, dict_get "stream" payload = Some v /\ falsy_value v.

(** The content of the echo of [body], of type [t]. *)
Definition echo_content (t : string) (body : PyVal) : PyVal :=
  PDict [("status", PStr "ok"); ("type", PStr t); ("echo", body)].

(** The content of the acknowledgement of an [agent_event]. *)
Definition event_content (payload : PyVal) : PyVal :=
  PDict [("status", PStr "ok"); ("type", PStr "agent_event"); ("event", payload)].

(** The outcome of the acknowledgement of an [agent_event]: the payload is
    logged, then the reply is rendered. *)
Definition event_outcome (payload : PyVal) : Eff Response :=
  match render_error payload with
  | Some e => ([mkLog INFO ("[agent_event] " ++ str payload)], Raise e)
  | None =>
      ([mkLog INFO ("[agent_event] " ++ str payload)],
       Return (JSONResponse (event_content payload) 200))
  end.

(** The outcome of the echo of a body: the reply is rendered. *)
Definition echo_outcome (t : string) (entries : list (string * PyVal)) : Eff Response :=
  match render_error (PDict entries) with
  | Some e => ([], Raise e)
  | None => ([], Return (JSONResponse (echo_content t (PDict entries)) 200))
  end.

(** The body of the two 400 replies. *)
Definition error_content (error : string) : PyVal :=
  PDict [("status", PStr "error"); ("error", PStr error)].

(** The request was refused by the check on [type]. *)
Definition rejected_missing_type (o : Eff Response) : Prop :=
  exists log,
    o = (log, Return (JSONResponse (error_content "Missing or invalid 'type' field") 400)).

(** The request was refused as unparsable. *)
Definition rejected_invalid_json (o : Eff Response) : Prop :=
  exists log,
    o = (log, Return (JSONResponse (error_content "Invalid JSON payload") 400)).

(** *** Item assignment, as the test script applies it to [A2A_MSG] *)

(** [d[key] = v] on the entries of a dict: the value is replaced where the
    key stands, or the entry is added at the end. *)
Fixpoint dict_set (key : string) (v : PyVal) (d : list (string * PyVal))
  : list (string * PyVal) :=
  match d with
  | [] => [(key, v)]
  | (k, x) :: d' =>
      if String.eqb k key then (k, v) :: d' else (k, x) :: dict_set key v d'
  end.

(** [msg["payload"]["stream"] = v]: the inner dict is the one [msg] holds,
    so the assignment shows in [msg]. *)
Definition set_payload_stream (msg : list (string * PyVal)) (v : PyVal)
  : Exc (list (string * PyVal)) :=
  match dict_get "payload" msg with
  | None => Raise KeyError
  | Some (PDict payload) =>
      Return (dict_set "payload" (PDict (dict_set "stream" v payload)) msg)
  | Some _ => Raise TypeError
  end.

(** *** Pacing of a generator *)

(** The time spent in [asyncio.sleep] before the chunk of index [n] is
    yielded, if there is such a chunk. *)
Fixpoint delay_before (n : nat) (g : list GenEvent) : option Z :=
  match g with
  | [] => None
  | Yield _ :: g' =>
      match n with
      | O => Some 0
      | S n' => delay_before n' g'
      end
  | Sleep millis :: g' => option_map (Z.add millis) (delay_before n g')
  end.

(** ** Properties *)

(** *** The model of Python values at work *)

Example repr_of_a_frame :
  repr (PDict [("type", PStr "task_progress"); ("progress", PInt (3 * 20))])
    = "{'type': 'task_progress', 'progress': 60}".
Proof. reflexivity. Qed.

Example repr_picks_the_quote :
  repr (PList [PStr "it's"; PStr "plain"; PInt (-5); PNone; PBool true; PFloat "1.5"])
    = String "[" (dq ++ "it's" ++ dq ++ ", 'plain', -5, None, True, 1.5]").
Proof. reflexivity. Qed.

Example repr_escapes_what_does_not_print :
  repr (PStr (String "194" (String "160" (String "195" (String "169" EmptyString)))))
    = String squote (String backslash "xa0")
      ++ String "195" (String "169" EmptyString) ++ String squote EmptyString
  /\ repr (PStr (String "237" (String "160" (String "128" EmptyString))))
    = String squote (String backslash "ud800") ++ String squote EmptyString.
Proof. split; reflexivity. Qed.

Example truth_values :
  map truthy [PNone; PBool false; PInt 0; PFloat "0.0"; PStr EmptyString; PList []; PDict [];
              PBool true; PInt 1; PFloat "0.5"; PStr "no"; PList [PInt 0]]
    = [false; false; false; false; false; false; false; true; true; true; true; true].
Proof. reflexivity. Qed.

Example json_reader_accepts :
  Json.loads " [1, -2.5e+10, true, null, [], {}] "
    = Json.Parsed
        (Json.JArray [Json.JNumber "1"; Json.JNumber "-2.5e+10"; Json.JBool true;
                      Json.JNull; Json.JArray []; Json.JObject []])
        EmptyString.
Proof. reflexivity. Qed.

Example json_reader_rejects :
  map Json.loads ["[01]"; "[1,]"; "[1 2]"; "-"; "1."; "nul"; "{'a': 1}"; "{a: 1}"]
    = repeat Json.SyntaxError 8.
Proof. reflexivity. Qed.

(** *** Unfolding the handler on a body that is a JSON object *)

(** The monad laws the unfolding needs. *)
Lemma bind_ret_l {A B : Type} (a : A) (k : A -> Eff B) : bind (ret a) k = k a.
Proof. unfold bind, ret. destruct (k a) as [l r]. reflexivity. Qed.

Lemma bind_raise {A B : Type} (e : PyExn) (k : A -> Eff B) : bind (raise e) k = raise e.
Proof. reflexivity. Qed.

Lemma dict_mem_get key d v : dict_get key d = Some v -> dict_mem key d = true.
Proof. unfold dict_mem. now intros ->. Qed.

(** *** Rendering a reply *)

(** The acknowledgement can be rendered exactly when the payload can. *)
Lemma render_error_event payload :
  render_error (event_content payload) = render_error payload.
Proof.
  unfold render_error, event_content. cbn [json_compliant utf8_encodable forallb snd fst].
  change (has_lone_surrogate "status") with false.
  change (has_lone_surrogate "type") with false.
  change (has_lone_surrogate "event") with false.
  change (has_lone_surrogate "ok") with false.
  change (has_lone_surrogate "agent_event") with false.
  cbn [negb andb]. now rewrite !andb_true_r.
Qed.


Lemma utf8_encodable_get key d v :
  utf8_encodable (PDict d) = true -> dict_get key d = Some v -> utf8_encodable v = true.
Proof.
  cbn [utf8_encodable]. induction d as [| [k x] d IH]; cbn [forallb dict_get snd fst];
    [discriminate |].
  intros H Hget. apply andb_true_iff in H as [Hx Hd].
  apply andb_true_iff in Hx as [_ Hx].
  destruct (String.eqb k key); [now injection Hget as <- | now apply IH].
Qed.

(** The echo of a body can be rendered exactly when the body can: its type
    is one of the strings of the body. *)
Lemma render_error_echo entries t :
  dict_get "type" entries = Some (PStr t) ->
  render_error (echo_content t (PDict entries)) = render_error (PDict entries).
Proof.
  intros Htype. unfold render_error, echo_content.
  cbn [json_compliant utf8_encodable forallb snd fst].
  change (has_lone_surrogate "status") with false.
  change (has_lone_surrogate "type") with false.
  change (has_lone_surrogate "echo") with false.
  change (has_lone_surrogate "ok") with false.
  cbn [negb andb]. rewrite !andb_true_r.
  destruct (forallb (fun kv => json_compliant (snd kv)) entries); [| reflexivity].
  cbn [negb].
  destruct (forallb (fun kv => negb (has_lone_surrogate (fst kv)) && utf8_encodable (snd kv))
              entries) eqn:E.
  - pose proof (utf8_encodable_get "type" entries (PStr t) E Htype) as Ht.
    cbn [utf8_encodable] in Ht. now rewrite Ht.
  - now rewrite andb_false_r.
Qed.


(** *** Truth values *)

Lemma truthy_false_iff v : truthy v = false <-> falsy_value v.
Proof.
  split.
  - destruct v as [ | [|] | n | r | s | [| x l] | [| kv d] ]; cbn [truthy];
      try discriminate; try (intros _; constructor).
    + destruct n; [intros _; constructor | discriminate | discriminate].
    + intros H. apply negb_false_iff, orb_true_iff in H as [H | H];
        apply String.eqb_eq in H; subst r; constructor.
    + destruct s; [intros _; constructor | discriminate].
  - intros H. destruct H; reflexivity.
Qed.

(** [payload.get("stream", False)] is false exactly when [stream] is off. *)
Lemma stream_off_iff payload :
  truthy (match dict_get "stream" payload with Some v => v | None => PBool false end)
    = false
  <-> stream_off payload.
Proof.
  unfold stream_off. destruct (dict_get "stream" payload) as [v |].
  - rewrite truthy_false_iff. split.
    + intros H. right. now exists v.
    + intros [H | (w & H & Hw)]; [discriminate H | now injection H as ->].
  - split; [now left | reflexivity].
Qed.

(** *** Unfolding the handler on a body that is a JSON object *)

(** After the check on [type] has passed, the handler is its dispatch part. *)
Lemma a2a_endpoint_validated entries t :
  dict_get "type" entries = Some (PStr t) ->
  a2a_endpoint (body_of entries) =
    (payload <- get (PDict entries) "payload" (PDict []) ;;
     streaming <- (if String.eqb t "task_request"
                   then s <- get payload "stream" (PBool false) ;; ret (truthy s)
                   else ret false) ;;
     if (streaming : bool) then
       ret (StreamingResponse stream_task_progress "application/json")
     else if String.eqb t "task_chunk" then
       ret (StreamingResponse chunk_stream "application/json")
     else if String.eqb t "agent_event" then
       logger_info ("[agent_event] " ++ str payload) ;;
       new_JSONResponse (event_content payload) 200
     else
       new_JSONResponse (echo_content t (PDict entries)) 200).
Proof.
  intros H. unfold a2a_endpoint, body_of. cbn [json].
  unfold contains, getitem.
  unfold get at 1.
  rewrite (dict_mem_get _ _ _ H), H.
  repeat (rewrite bind_ret_l; cbn beta iota delta [negb isinstance_str]).
  reflexivity.
Qed.

Lemma get_payload entries :
  get (PDict entries) "payload" (PDict []) = ret (payload_of entries).
Proof. reflexivity. Qed.

(** Rewriting steps shared by the proofs about the dispatch part. *)
Ltac dispatch_step :=
  first [ rewrite bind_ret_l | rewrite bind_raise | rewrite get_payload ];
  cbn beta iota.

Ltac dispatch H :=
  rewrite (a2a_endpoint_validated _ _ H); repeat dispatch_step.

Lemma logged_event payload :
  (logger_info ("[agent_event] " ++ str payload) ;;
   new_JSONResponse (event_content payload) 200)
    = event_outcome payload.
Proof.
  unfold event_outcome, new_JSONResponse. rewrite render_error_event.
  destruct (render_error payload); reflexivity.
Qed.

Lemma rendered_echo entries t :
  dict_get "type" entries = Some (PStr t) ->
  new_JSONResponse (echo_content t (PDict entries)) 200 = echo_outcome t entries.
Proof.
  intros Htype. unfold echo_outcome, new_JSONResponse.
  rewrite (render_error_echo _ _ Htype).
  destruct (render_error (PDict entries)); reflexivity.
Qed.

(** The dispatch part in closed form. *)
Lemma dispatch_closed_form entries t :
  dict_get "type" entries = Some (PStr t) ->
  a2a_endpoint (body_of entries) =
    if String.eqb t "task_request" then
      match payload_of entries with
      | PDict payload =>
          if truthy (match dict_get "stream" payload with
                     | Some v => v
                     | None => PBool false
                     end)
          then ([], Return (StreamingResponse stream_task_progress "application/json"))
          else echo_outcome t entries
      | _ => ([], Raise AttributeError)
      end
    else if String.eqb t "task_chunk" then
      ([], Return (StreamingResponse chunk_stream "application/json"))
    else if String.eqb t "agent_event" then event_outcome (payload_of entries)
    else echo_outcome t entries.
Proof.
  intros Htype.
  rewrite (a2a_endpoint_validated _ _ Htype), get_payload, bind_ret_l.
  cbn beta. rewrite logged_event, (rendered_echo _ _ Htype).
  destruct (String.eqb_spec t "task_request") as [-> | Hreq].
  - destruct (payload_of entries); unfold get;
      rewrite ?bind_raise, ?bind_ret_l; try reflexivity.
  - rewrite bind_ret_l. reflexivity.
Qed.

(** *** Streaming replies *)

Lemma frames_stream_task_progress :
  frames stream_task_progress =
    List.app (map task_progress_frame [0; 20; 40; 60; 80]) [done_text ++ nl].
Proof. reflexivity. Qed.

Lemma frames_chunk_stream :
  frames chunk_stream =
    List.app (map task_chunk_frame ["partial_0"; "partial_1"; "partial_2"])
          [str (PDict [("type", PStr "result");
                       ("payload", PDict [("result", PStr "final from chunk")])]) ++ nl].
Proof. reflexivity. Qed.

(** C1: a body of type [task_request] whose payload has [stream] equal to
    [true] is answered by a stream of exactly five [task_progress] frames
    with progress 0, 20, 40, 60, 80 in that order, then one [result] frame
    with payload [{result: "done"}], and nothing after it. *)
Theorem C1_task_request_stream :
  forall entries payload : list (string * PyVal),
    dict_get "type" entries = Some (PStr "task_request") ->
    dict_get "payload" entries = Some (PDict payload) ->
    dict_get "stream" payload = Some (PBool true) ->
    exists gen,
      a2a_endpoint (body_of entries)
        = ([], Return (StreamingResponse gen "application/json")) /\
      frames gen
        = List.app (map task_progress_frame [0; 20; 40; 60; 80]) [done_text ++ nl] /\
      frames gen
        = ["{'type': 'task_progress', 'progress': 0}" ++ nl;
           "{'type': 'task_progress', 'progress': 20}" ++ nl;
           "{'type': 'task_progress', 'progress': 40}" ++ nl;
           "{'type': 'task_progress', 'progress': 60}" ++ nl;
           "{'type': 'task_progress', 'progress': 80}" ++ nl;
           done_text ++ nl] /\
      Json.loads done_text
        = Json.Parsed
            (Json.JObject [("type", Json.JString "result");
                           ("payload", Json.JObject [("result", Json.JString "done")])])
            EmptyString.
Proof.
  intros entries payload Htype Hpayload Hstream.
  exists stream_task_progress. split.
  - dispatch Htype. unfold payload_of. rewrite Hpayload.
    unfold get. rewrite Hstream. repeat dispatch_step. reflexivity.
  - repeat split; reflexivity.
Qed.

Lemma C1_task_request_stream_witness :
  exists gen,
    a2a_endpoint (body_of A2A_MSG)
      = ([], Return (StreamingResponse gen "application/json")) /\
    frames gen
      = List.app (map task_progress_frame [0; 20; 40; 60; 80]) [done_text ++ nl] /\
    frames gen
      = ["{'type': 'task_progress', 'progress': 0}" ++ nl;
         "{'type': 'task_progress', 'progress': 20}" ++ nl;
         "{'type': 'task_progress', 'progress': 40}" ++ nl;
         "{'type': 'task_progress', 'progress': 60}" ++ nl;
         "{'type': 'task_progress', 'progress': 80}" ++ nl;
         done_text ++ nl] /\
    Json.loads done_text
      = Json.Parsed
          (Json.JObject [("type", Json.JString "result");
                         ("payload", Json.JObject [("result", Json.JString "done")])])
          EmptyString.
Proof.
  apply (C1_task_request_stream A2A_MSG
           [("task_id", PStr "t1"); ("stream", PBool true)]); reflexivity.
Defined.

(** C2: a body of type [task_chunk] is answered, whatever its payload and
    whether [stream] is absent, true or false, by a stream of exactly three
    [task_chunk] frames with chunks partial_0, partial_1, partial_2 in that
    order, then one [result] frame with payload
    [{result: "final from chunk"}]. *)
Theorem C2_task_chunk_stream :
  forall entries : list (string * PyVal),
    dict_get "type" entries = Some (PStr "task_chunk") ->
    exists gen,
      a2a_endpoint (body_of entries)
        = ([], Return (StreamingResponse gen "application/json")) /\
      frames gen
        = List.app (map task_chunk_frame ["partial_0"; "partial_1"; "partial_2"])
          [str (PDict [("type", PStr "result");
                       ("payload", PDict [("result", PStr "final from chunk")])]) ++ nl] /\
      frames gen
        = ["{'type': 'task_chunk', 'chunk': 'partial_0'}" ++ nl;
           "{'type': 'task_chunk', 'chunk': 'partial_1'}" ++ nl;
           "{'type': 'task_chunk', 'chunk': 'partial_2'}" ++ nl;
           "{'type': 'result', 'payload': {'result': 'final from chunk'}}" ++ nl].
Proof.
  intros entries Htype.
  exists chunk_stream. split.
  - dispatch Htype. reflexivity.
  - split; reflexivity.
Qed.

Lemma C2_task_chunk_stream_witness :
  (exists gen,
     a2a_endpoint (body_of chunk_msg)
       = ([], Return (StreamingResponse gen "application/json")) /\
     frames gen
       = List.app (map task_chunk_frame ["partial_0"; "partial_1"; "partial_2"])
          [str (PDict [("type", PStr "result");
                       ("payload", PDict [("result", PStr "final from chunk")])]) ++ nl] /\
     frames gen
       = ["{'type': 'task_chunk', 'chunk': 'partial_0'}" ++ nl;
          "{'type': 'task_chunk', 'chunk': 'partial_1'}" ++ nl;
          "{'type': 'task_chunk', 'chunk': 'partial_2'}" ++ nl;
          "{'type': 'result', 'payload': {'result': 'final from chunk'}}" ++ nl]).
Proof.
  apply (C2_task_chunk_stream chunk_msg). reflexivity.
Defined.

(** *** Immediate replies *)

(** C3, as stated, fails: a [task_request] whose [stream] is the string
    "no", which is not equal to [true], is not echoed but streamed. *)
Lemma C3_stream_no_is_streamed :
  dict_get "type" [("type", PStr "task_request"); ("payload", PDict [("stream", PStr "no")])]
    = Some (PStr "task_request") /\
  a2a_endpoint (body_of [("type", PStr "task_request");
                         ("payload", PDict [("stream", PStr "no")])])
    = ([], Return (StreamingResponse stream_task_progress "application/json")) /\
  a2a_endpoint (body_of [("type", PStr "task_request");
                         ("payload", PDict [("stream", PStr "no")])])
    <> ([], Return (JSONResponse
                      (PDict [("status", PStr "ok");
                              ("type", PStr "task_request");
                              ("echo", PDict [("type", PStr "task_request");
                                              ("payload", PDict [("stream", PStr "no")])])])
                      200)).
Proof.
  split; [reflexivity |]. split; [reflexivity |]. discriminate.
Qed.

(** Nor is a body echoed that holds a number out of range: the echo cannot
    be rendered. *)
Example echo_of_inf_raises :
  a2a_endpoint (body_of [("type", PStr "ping"); ("x", PFloat "inf")])
    = ([], Raise ValueError).
Proof. reflexivity. Qed.

Example echo_of_lone_surrogate_raises :
  a2a_endpoint (body_of [("type", PStr (String "237" (String "160" (String "128" EmptyString))))])
    = ([], Raise UnicodeEncodeError).
Proof. reflexivity. Qed.

(** C3, amended: a validated body that no earlier rule routes (its type is
    neither [task_chunk] nor [agent_event], and if it is [task_request] then
    its payload is absent or a dict in which [stream] is absent or has a
    false truth value: [false], [null], zero, or an empty string, list or
    dict) and that can be rendered is answered at once by
    [{status: "ok", type: <type>, echo: <the whole body>}]. *)
Theorem C3_default_echo :
  forall (entries : list (string * PyVal)) (t : string),
    dict_get "type" entries = Some (PStr t) ->
    t <> "task_chunk" ->
    t <> "agent_event" ->
    (t <> "task_request" \/
     exists payload, payload_of entries = PDict payload /\ stream_off payload) ->
    render_error (PDict entries) = None ->
    a2a_endpoint (body_of entries)
      = ([], Return (JSONResponse (PDict [("status", PStr "ok");
                                          ("type", PStr t);
                                          ("echo", PDict entries)]) 200)).
Proof.
  intros entries t Htype Hchunk Hevent Hrule Hrender.
  rewrite (dispatch_closed_form _ _ Htype).
  apply String.eqb_neq in Hchunk, Hevent. rewrite Hchunk, Hevent.
  unfold echo_outcome. rewrite Hrender.
  destruct (String.eqb_spec t "task_request") as [-> | Hreq]; [| reflexivity].
  destruct Hrule as [Hne | (payload & Hpayload & Hoff)]; [now elim Hne |].
  rewrite Hpayload. apply stream_off_iff in Hoff. now rewrite Hoff.
Qed.

Lemma C3_default_echo_witness :
  a2a_endpoint (body_of [("type", PStr "task_request"); ("sender", PNone);
                         ("payload", PDict [("stream", PInt 0)])])
    = ([], Return (JSONResponse
                     (PDict [("status", PStr "ok");
                             ("type", PStr "task_request");
                             ("echo", PDict [("type", PStr "task_request"); ("sender", PNone);
                                             ("payload", PDict [("stream", PInt 0)])])])
                     200)).
Proof.
  apply (C3_default_echo
           [("type", PStr "task_request"); ("sender", PNone);
            ("payload", PDict [("stream", PInt 0)])]
           "task_request").
  - reflexivity.
  - discriminate.
  - discriminate.
  - right. exists [("stream", PInt 0)]. split; [reflexivity |].
    right. exists (PInt 0). split; [reflexivity | constructor].
  - reflexivity.
Defined.

(** The last message of the test script, [stream] being [False], is echoed. *)
Example A2A_MSG_nostream_echoed :
  a2a_endpoint (body_of A2A_MSG_nostream)
    = ([], Return (JSONResponse (echo_content "task_request" (PDict A2A_MSG_nostream)) 200)).
Proof. reflexivity. Qed.

(** C8, as stated, fails: an [agent_event] whose payload holds a number out
    of range is logged and then not answered, the reply cannot be
    rendered. *)
Lemma C8_inf_payload_raises :
  dict_get "type" [("type", PStr "agent_event"); ("payload", PDict [("v", PFloat "inf")])]
    = Some (PStr "agent_event") /\
  a2a_endpoint (body_of [("type", PStr "agent_event");
                         ("payload", PDict [("v", PFloat "inf")])])
    = ([mkLog INFO "[agent_event] {'v': inf}"], Raise ValueError) /\
  ~ (exists log response,
       a2a_endpoint (body_of [("type", PStr "agent_event");
                              ("payload", PDict [("v", PFloat "inf")])])
         = (log, Return response)).
Proof.
  split; [reflexivity |]. split; [reflexivity |].
  intros (log & response & H). discriminate H.
Qed.

(** C8, amended: a body of type [agent_event] whose payload can be rendered
    is answered at once, without a stream, by
    [{status: "ok", type: "agent_event", event: <payload>}], where the
    payload is the empty dict when the body has none; the payload is logged
    once. *)
Theorem C8_agent_event :
  forall entries : list (string * PyVal),
    dict_get "type" entries = Some (PStr "agent_event") ->
    render_error (payload_of entries) = None ->
    a2a_endpoint (body_of entries)
      = ([mkLog INFO ("[agent_event] " ++ str (payload_of entries))],
         Return (JSONResponse (PDict [("status", PStr "ok");
                                      ("type", PStr "agent_event");
                                      ("event", payload_of entries)]) 200))
    /\ (dict_get "payload" entries = None -> payload_of entries = PDict []).
Proof.
  intros entries Htype Hrender. split.
  - rewrite (dispatch_closed_form _ _ Htype). cbn [String.eqb Ascii.eqb Bool.eqb].
    unfold event_outcome. now rewrite Hrender.
  - intros Habsent. unfold payload_of. now rewrite Habsent.
Qed.

Lemma C8_agent_event_witness :
  a2a_endpoint (body_of event_msg)
    = ([mkLog INFO ("[agent_event] " ++ str (payload_of event_msg))],
       Return (JSONResponse (PDict [("status", PStr "ok");
                                    ("type", PStr "agent_event");
                                    ("event", payload_of event_msg)]) 200))
  /\ (dict_get "payload" event_msg = None -> payload_of event_msg = PDict []).
Proof.
  apply (C8_agent_event event_msg); reflexivity.
Defined.

(** With no payload in the body, the event acknowledged is the empty dict. *)
Example agent_event_without_payload :
  a2a_endpoint (body_of [("type", PStr "agent_event")])
    = ([mkLog INFO "[agent_event] {}"],
       Return (JSONResponse (PDict [("status", PStr "ok");
                                    ("type", PStr "agent_event");
                                    ("event", PDict [])]) 200)).
Proof. reflexivity. Qed.

(** *** The check on [type] *)

(** The reply to a body that is a JSON object without a string under
    [type]. *)
Lemma not_str_rejected entries :
  (forall t, dict_get "type" entries <> Some (PStr t)) ->
  a2a_endpoint (body_of entries)
    = ([mkLog ERROR ("Missing or invalid 'type' field in message: " ++ str (PDict entries))],
       Return (JSONResponse (error_content "Missing or invalid 'type' field") 400)).
Proof.
  intros Hnot. unfold a2a_endpoint, body_of. cbn [json].
  unfold contains, dict_mem, get.
  destruct (dict_get "type" entries) as [v |] eqn:Hget.
  - destruct v; try (now elim (Hnot s));
      repeat (rewrite bind_ret_l; cbn beta iota delta [negb isinstance_str]);
      reflexivity.
  - repeat (rewrite bind_ret_l; cbn beta iota delta [negb]). reflexivity.
Qed.

(** C4: a body in which [type] is absent, null or not a string gets exactly
    the 400 reply [{status: "error", error: "Missing or invalid 'type'
    field"}], the same for the three conditions, whatever its other fields
    are: the check comes before anything reads them. *)
Theorem C4_missing_type :
  forall entries : list (string * PyVal),
    (dict_get "type" entries = None \/
     dict_get "type" entries = Some PNone \/
     exists v, dict_get "type" entries = Some v /\ isinstance_str v = false) ->
    a2a_endpoint (body_of entries)
      = ([mkLog ERROR ("Missing or invalid 'type' field in message: "
                       ++ str (PDict entries))],
         Return (JSONResponse (PDict [("status", PStr "error");
                                      ("error", PStr "Missing or invalid 'type' field")])
                              400)).
Proof.
  intros entries H. apply not_str_rejected. intros t Ht.
  destruct H as [H | [H | (v & H & Hv)]]; rewrite H in Ht; try discriminate.
  injection Ht as ->. discriminate.
Qed.

(** A body with no [type], a payload that is not a dict and a sender that
    is not a string: only the error about [type] shows. *)
Lemma C4_missing_type_witness :
  a2a_endpoint (body_of [("sender", PInt 7); ("payload", PList [PInt 1])])
    = ([mkLog ERROR ("Missing or invalid 'type' field in message: "
                     ++ str (PDict [("sender", PInt 7); ("payload", PList [PInt 1])]))],
       Return (JSONResponse (PDict [("status", PStr "error");
                                    ("error", PStr "Missing or invalid 'type' field")])
                            400)).
Proof.
  apply (C4_missing_type [("sender", PInt 7); ("payload", PList [PInt 1])]).
  left. reflexivity.
Defined.

(** The three negative tests of [test_a2a_interop.py]. *)
Example negative_tests :
  rejected_missing_type (a2a_endpoint (body_of invalid_msg1)) /\
  rejected_missing_type (a2a_endpoint (body_of invalid_msg2)) /\
  rejected_missing_type (a2a_endpoint (body_of invalid_msg3)).
Proof. repeat split; eexists; reflexivity. Qed.

(** C9, as stated, fails: a body whose [type] is the empty string passes the
    check and is dispatched to the echo. *)
Lemma C9_empty_type_dispatched :
  a2a_endpoint (body_of [("type", PStr EmptyString)])
    = ([], Return (JSONResponse (PDict [("status", PStr "ok");
                                        ("type", PStr EmptyString);
                                        ("echo", PDict [("type", PStr EmptyString)])]) 200))
  /\ ~ rejected_missing_type (a2a_endpoint (body_of [("type", PStr EmptyString)])).
Proof.
  split; [reflexivity |].
  intros [log H]. discriminate H.
Qed.

(** C9, amended: a body passes the check on [type] exactly when [type] is
    present and is a string, which may be empty. *)
Theorem C9_validated_type_is_str :
  forall entries : list (string * PyVal),
    ~ rejected_missing_type (a2a_endpoint (body_of entries)) <->
    exists t, dict_get "type" entries = Some (PStr t).
Proof.
  intros entries. split.
  - intros Hpass.
    destruct (dict_get "type" entries) as [v |] eqn:Hget.
    + destruct v; try (now eexists);
        exfalso; apply Hpass; eexists; apply not_str_rejected;
        intros t Ht; rewrite Hget in Ht; discriminate.
    + exfalso. apply Hpass. eexists. apply not_str_rejected.
      intros t Ht. rewrite Hget in Ht. discriminate.
  - intros [t Ht] [log H].
    rewrite (dispatch_closed_form _ _ Ht) in H.
    unfold echo_outcome, event_outcome in H.
    destruct (String.eqb t "task_request").
    + destruct (payload_of entries); try discriminate H.
      destruct (truthy _); [discriminate H |].
      destruct (render_error (PDict entries)); discriminate H.
    + destruct (String.eqb t "task_chunk"); [discriminate H |].
      destruct (String.eqb t "agent_event").
      * destruct (render_error (payload_of entries)); discriminate H.
      * destruct (render_error (PDict entries)); discriminate H.
Qed.

Lemma C9_validated_type_is_str_witness :
  exists t, dict_get "type" [("type", PStr EmptyString)] = Some (PStr t).
Proof.
  apply (proj1 (C9_validated_type_is_str [("type", PStr EmptyString)])).
  intros [log H]. discriminate H.
Defined.

(** *** Bodies that are not JSON objects *)

(** C5, as stated, fails: the body [[]] parses, is not a JSON object, and is
    answered with the error about [type], not with "Invalid JSON payload". *)
Lemma C5_array_body_not_invalid_json :
  (forall entries, json {| json := Body (PList []) |} <> Body (PDict entries)) /\
  a2a_endpoint {| json := Body (PList []) |}
    = ([mkLog ERROR "Missing or invalid 'type' field in message: []"],
       Return (JSONResponse (error_content "Missing or invalid 'type' field") 400)) /\
  ~ rejected_invalid_json (a2a_endpoint {| json := Body (PList []) |}).
Proof.
  split; [intros entries; discriminate |].
  split; [reflexivity |].
  intros [log H]. discriminate H.
Qed.

(** A body that parses to a number is not answered at all: the membership
    test of the check on [type] raises. *)
Example number_body_raises :
  a2a_endpoint {| json := Body (PInt 5) |} = ([], Raise TypeError).
Proof. reflexivity. Qed.

(** A body that parses to a string holding "type" raises in [body.get]. *)
Example string_body_raises :
  a2a_endpoint {| json := Body (PStr "mytype") |} = ([], Raise AttributeError).
Proof. reflexivity. Qed.

(** C5, amended: a request whose body does not parse ([request.json()]
    raises) gets exactly the 400 reply
    [{status: "error", error: "Invalid JSON payload"}]; nothing is
    dispatched, and the failure is logged once. *)
Theorem C5_invalid_json :
  forall (request : Request) (str_e : string),
    json request = Failure str_e ->
    a2a_endpoint request
      = ([mkLog ERROR ("Failed to parse JSON: " ++ str_e)],
         Return (JSONResponse (PDict [("status", PStr "error");
                                      ("error", PStr "Invalid JSON payload")]) 400)).
Proof.
  intros request str_e H. unfold a2a_endpoint. rewrite H. reflexivity.
Qed.

Lemma C5_invalid_json_witness :
  a2a_endpoint {| json := Failure "Expecting value: line 1 column 1 (char 0)" |}
    = ([mkLog ERROR ("Failed to parse JSON: "
                     ++ "Expecting value: line 1 column 1 (char 0)")],
       Return (JSONResponse (PDict [("status", PStr "error");
                                    ("error", PStr "Invalid JSON payload")]) 400)).
Proof.
  apply (C5_invalid_json
           {| json := Failure "Expecting value: line 1 column 1 (char 0)" |}
           "Expecting value: line 1 column 1 (char 0)").
  reflexivity.
Defined.

(** *** The dispatch part does not fail on a payload that is a dict *)


(** The same with a null payload. *)
Example null_payload_raises :
  a2a_endpoint (body_of [("type", PStr "task_request"); ("payload", PNone)])
    = ([], Raise AttributeError).
Proof. reflexivity. Qed.



(** *** The frames of a stream as JSON lines *)

(** A reply that streams comes from one of the two generators. *)
Lemma streaming_response_inv request log gen media_type :
  a2a_endpoint request = (log, Return (StreamingResponse gen media_type)) ->
  gen = stream_task_progress \/ gen = chunk_stream.
Proof.
  destruct request as [[body | str_e]]; [| discriminate].
  destruct body as [ | b | n | r | s | items | entries ];
    try discriminate.
  - (* a str *)
    unfold a2a_endpoint. cbn [json]. unfold contains.
    rewrite bind_ret_l. cbn beta.
    destruct (is_substring "type" s); cbn [negb]; discriminate.
  - (* a list *)
    unfold a2a_endpoint. cbn [json]. unfold contains.
    rewrite bind_ret_l. cbn beta.
    destruct (existsb _ items); cbn [negb]; discriminate.
  - (* a dict *)
    change {| json := Body (PDict entries) |} with (body_of entries).
    destruct (dict_get "type" entries) as [v |] eqn:Hget.
    + destruct v as [ | b | n | r | t | items | d ];
        try (rewrite not_str_rejected;
             [discriminate | intros t Ht; rewrite Hget in Ht; discriminate]).
      rewrite (dispatch_closed_form _ _ Hget).
      unfold echo_outcome, event_outcome.
      destruct (String.eqb t "task_request").
      * destruct (payload_of entries); try discriminate.
        destruct (truthy _).
        -- intros H. left. injection H as _ H _. now symmetry.
        -- destruct (render_error (PDict entries)); discriminate.
      * destruct (String.eqb t "task_chunk").
        -- intros H. right. injection H as _ H _. now symmetry.
        -- destruct (String.eqb t "agent_event").
           ++ destruct (render_error (payload_of entries)); discriminate.
           ++ destruct (render_error (PDict entries)); discriminate.
    + rewrite not_str_rejected;
        [discriminate | intros t Ht; rewrite Hget in Ht; discriminate].
Qed.

(** Every frame of the two generators is one line ... *)
Lemma frames_are_lines :
  map Json.strip_line (frames stream_task_progress)
    = [Some "{'type': 'task_progress', 'progress': 0}";
       Some "{'type': 'task_progress', 'progress': 20}";
       Some "{'type': 'task_progress', 'progress': 40}";
       Some "{'type': 'task_progress', 'progress': 60}";
       Some "{'type': 'task_progress', 'progress': 80}";
       Some done_text] /\
  map Json.strip_line (frames chunk_stream)
    = [Some "{'type': 'task_chunk', 'chunk': 'partial_0'}";
       Some "{'type': 'task_chunk', 'chunk': 'partial_1'}";
       Some "{'type': 'task_chunk', 'chunk': 'partial_2'}";
       Some "{'type': 'result', 'payload': {'result': 'final from chunk'}}"].
Proof. split; reflexivity. Qed.

(** ... but only the last frame of the progress stream is a JSON text: the
    others are [str] of a dict, with single quotes. *)
Lemma frames_json_test :
  map Json.is_json_object_line (frames stream_task_progress)
    = [false; false; false; false; false; true] /\
  map Json.is_json_object_line (frames chunk_stream)
    = [false; false; false; false].
Proof. split; vm_compute; reflexivity. Qed.

(** No streamed reply is a sequence of JSON lines: each one holds a frame
    that is not a JSON object. *)
Lemma every_stream_has_a_non_json_frame request log gen media_type :
  a2a_endpoint request = (log, Return (StreamingResponse gen media_type)) ->
  exists frame, In frame (frames gen) /\ Json.is_json_object_line frame = false.
Proof.
  intros H. destruct (streaming_response_inv _ _ _ _ H) as [-> | ->].
  - exists (task_progress_frame 0). split; [now left | vm_compute; reflexivity].
  - exists (task_chunk_frame "partial_0"). split; [now left | vm_compute; reflexivity].
Qed.

(** C7, on the streaming request of [test_a2a_interop.py]: the five
    [task_progress] frames the handler streams are not JSON texts (the first
    one is a syntax error for the JSON reader), although each is a line of
    its own and the media type announced is [application/json]; only the
    [result] frame is a JSON object.  The frames of the [task_chunk] stream
    are not JSON texts either. *)
Theorem C7_frames_not_json :
  (exists gen,
     a2a_endpoint (body_of A2A_MSG)
       = ([], Return (StreamingResponse gen "application/json")) /\
     nth_error (frames gen) 0 = Some ("{'type': 'task_progress', 'progress': 0}" ++ nl) /\
     map Json.is_json_object_line (frames gen)
       = [false; false; false; false; false; true]) /\
  Json.loads "{'type': 'task_progress', 'progress': 0}" = Json.SyntaxError /\
  (exists gen,
     a2a_endpoint (body_of chunk_msg)
       = ([], Return (StreamingResponse gen "application/json")) /\
     map Json.is_json_object_line (frames gen) = [false; false; false; false]).
Proof.
  split; [| split].
  - exists stream_task_progress. repeat split; vm_compute; reflexivity.
  - vm_compute. reflexivity.
  - exists chunk_stream. repeat split; vm_compute; reflexivity.
Qed.

(** *** The agent card *)

Lemma handle_globals g c : fst (handle g c) = g.
Proof. destruct c; reflexivity. Qed.

Lemma serve_globals calls : forall g, fst (serve g calls) = g.
Proof.
  induction calls as [| c calls IH]; intros g; [reflexivity |].
  cbn [serve].
  pose proof (handle_globals g c) as Hc.
  destruct (handle g c) as [g1 r]. cbn [fst] in Hc. subst g1.
  specialize (IH g). destruct (serve g calls) as [g2 rs]. exact IH.
Qed.

Lemma serve_nth calls : forall g i c,
  nth_error calls i = Some c ->
  nth_error (snd (serve g calls)) i = Some (snd (handle g c)).
Proof.
  induction calls as [| c0 calls IH]; intros g i c Hi.
  - destruct i; discriminate.
  - cbn [serve].
    pose proof (handle_globals g c0) as Hc.
    destruct (handle g c0) as [g1 r] eqn:Hh. cbn [fst] in Hc. subst g1.
    specialize (IH g). destruct (serve g calls) as [g2 rs]. cbn [snd] in *.
    destruct i as [| i].
    + injection Hi as <-. now rewrite Hh.
    + cbn [nth_error] in *. now apply IH.
Qed.

(** C10: in any sequence of calls to the three routes, starting from the
    module as loaded, every [GET /api/agent_card] is answered with the same
    card, [AGENT_CARD]; a [POST /api/agent_card] is answered with
    [{status: "ok", card: <body>}]; and the globals of the module are left
    as they were. *)
Theorem C10_agent_card_stable :
  forall (calls : list Call) (i : nat) (c : Call),
    nth_error calls i = Some c ->
    fst (serve module_globals calls) = module_globals /\
    match c with
    | GET_agent_card =>
        nth_error (snd (serve module_globals calls)) i
          = Some (ret (JSONResponse AGENT_CARD 200))
    | POST_agent_card card =>
        nth_error (snd (serve module_globals calls)) i
          = Some (ret (JSONResponse (PDict [("status", PStr "ok");
                                            ("card", PDict card)]) 200))
    | POST_a2a request =>
        nth_error (snd (serve module_globals calls)) i = Some (a2a_endpoint request)
    end.
Proof.
  intros calls i c Hi. split; [apply serve_globals |].
  rewrite (serve_nth _ _ _ _ Hi). destruct c; reflexivity.
Qed.

Lemma C10_agent_card_stable_witness :
  fst (serve module_globals
         [GET_agent_card; POST_agent_card [("id", PStr "other")]; GET_agent_card])
    = module_globals /\
  nth_error
    (snd (serve module_globals
            [GET_agent_card; POST_agent_card [("id", PStr "other")]; GET_agent_card])) 2
    = Some (ret (JSONResponse AGENT_CARD 200)).
Proof.
  apply (C10_agent_card_stable
           [GET_agent_card; POST_agent_card [("id", PStr "other")]; GET_agent_card]
           2 GET_agent_card).
  reflexivity.
Defined.

(** ** Further properties of the handlers *)

(** *** Bodies that are not JSON objects *)

Lemma a2a_endpoint_str_body s :
  a2a_endpoint {| json := Body (PStr s) |}
    = if is_substring "type" s
      then ([], Raise AttributeError)
      else ([mkLog ERROR ("Missing or invalid 'type' field in message: " ++ s)],
            Return (JSONResponse (error_content "Missing or invalid 'type' field") 400)).
Proof.
  unfold a2a_endpoint. cbn [json]. unfold contains.
  rewrite bind_ret_l. cbn beta.
  destruct (is_substring "type" s); reflexivity.
Qed.

Lemma a2a_endpoint_list_body items :
  a2a_endpoint {| json := Body (PList items) |}
    = if existsb (fun v => eq_str v "type") items
      then ([], Raise AttributeError)
      else ([mkLog ERROR ("Missing or invalid 'type' field in message: "
                          ++ str (PList items))],
            Return (JSONResponse (error_content "Missing or invalid 'type' field") 400)).
Proof.
  unfold a2a_endpoint. cbn [json]. unfold contains.
  rewrite bind_ret_l. cbn beta.
  destruct (existsb _ items); reflexivity.
Qed.

Lemma prefix_app p : forall s, prefix p s = true <-> exists b, s = p ++ b.
Proof.
  induction p as [| c p IH]; intros s.
  - destruct s; (split; [intros _; eexists; reflexivity | intros _; reflexivity]).
  - destruct s as [| d s]; cbn [prefix].
    + split; [discriminate | intros [b H]; discriminate H].
    + destruct (ascii_dec c d) as [-> | Hne].
      * rewrite IH. split; intros [b H]; exists b.
        -- cbn. now rewrite H.
        -- cbn in H. now injection H.
      * split; [discriminate |]. intros [b H]. cbn in H.
        injection H as H _. now elim Hne.
Qed.

Lemma is_substring_spec p : forall s,
  is_substring p s = true <-> exists a b, s = a ++ p ++ b.
Proof.
  induction s as [| c s IH]; cbn [is_substring].
  - rewrite orb_false_r, prefix_app. split.
    + intros [b H]. now exists EmptyString, b.
    + intros (a & b & H). destruct a; [now exists b | discriminate H].
  - rewrite orb_true_iff, prefix_app, IH. split.
    + intros [[b H] | (a & b & H)].
      * now exists EmptyString, b.
      * exists (String c a), b. cbn. now rewrite H.
    + intros (a & b & H). destruct a as [| d a].
      * left. now exists b.
      * right. cbn in H. injection H as _ H. now exists a, b.
Qed.

Lemma existsb_eq_str key items :
  existsb (fun v => eq_str v key) items = true <-> In (PStr key) items.
Proof.
  rewrite existsb_exists. split.
  - intros (v & Hin & Heq). destruct v; try discriminate Heq.
    cbn in Heq. apply String.eqb_eq in Heq. now subst.
  - intros Hin. exists (PStr key). split; [assumption |].
    cbn. apply String.eqb_refl.
Qed.

(** X1: a body that parses to [null], a boolean or a number is not answered:
    the membership test of the check on [type] raises [TypeError], before
    anything is logged. *)
Theorem scalar_body_raises_TypeError :
  forall body : PyVal,
    match body with
    | PNone | PBool _ | PInt _ | PFloat _ => True
    | PStr _ | PList _ | PDict _ => False
    end ->
    a2a_endpoint {| json := Body body |} = ([], Raise TypeError).
Proof.
  intros body H. destruct body; (reflexivity || now elim H).
Qed.

Lemma scalar_body_raises_TypeError_witness :
  a2a_endpoint {| json := Body (PBool true) |} = ([], Raise TypeError).
Proof.
  apply (scalar_body_raises_TypeError (PBool true)). exact I.
Defined.

(** X2: a body that parses to a list is refused with the 400 reply about
    [type] when none of its items is the string "type"; when one is, the
    membership test passes and [body.get] raises [AttributeError]. *)
Theorem list_body_outcome :
  forall items : list PyVal,
    (In (PStr "type") items ->
     a2a_endpoint {| json := Body (PList items) |} = ([], Raise AttributeError)) /\
    (~ In (PStr "type") items ->
     a2a_endpoint {| json := Body (PList items) |}
       = ([mkLog ERROR ("Missing or invalid 'type' field in message: "
                        ++ str (PList items))],
          Return (JSONResponse (PDict [("status", PStr "error");
                                       ("error", PStr "Missing or invalid 'type' field")])
                               400))).
Proof.
  intros items. rewrite a2a_endpoint_list_body.
  destruct (existsb (fun v => eq_str v "type") items) eqn:E.
  - apply existsb_eq_str in E. split; [reflexivity | intros H; now elim H].
  - split; [| reflexivity].
    intros H. apply existsb_eq_str in H. rewrite H in E. discriminate E.
Qed.

Lemma list_body_outcome_witness :
  a2a_endpoint {| json := Body (PList [PInt 1; PStr "type"]) |} = ([], Raise AttributeError).
Proof.
  apply (proj1 (list_body_outcome [PInt 1; PStr "type"])).
  right. left. reflexivity.
Defined.

(** X3: a body that parses to a string is refused with the 400 reply about
    [type] when "type" does not occur in it; when it does, [body.get] raises
    [AttributeError]. *)
Theorem str_body_outcome :
  forall s : string,
    ((exists a b, s = a ++ "type" ++ b) ->
     a2a_endpoint {| json := Body (PStr s) |} = ([], Raise AttributeError)) /\
    (~ (exists a b, s = a ++ "type" ++ b) ->
     a2a_endpoint {| json := Body (PStr s) |}
       = ([mkLog ERROR ("Missing or invalid 'type' field in message: " ++ s)],
          Return (JSONResponse (PDict [("status", PStr "error");
                                       ("error", PStr "Missing or invalid 'type' field")])
                               400))).
Proof.
  intros s. rewrite a2a_endpoint_str_body.
  destruct (is_substring "type" s) eqn:E.
  - apply is_substring_spec in E. split; [reflexivity | intros H; now elim H].
  - split; [| reflexivity].
    intros H. apply is_substring_spec in H. rewrite H in E. discriminate E.
Qed.

Lemma str_body_outcome_witness :
  a2a_endpoint {| json := Body (PStr "mytypes") |} = ([], Raise AttributeError).
Proof.
  apply (proj1 (str_body_outcome "mytypes")).
  exists "my", "s". reflexivity.
Defined.

(** *** Exceptions on a body that is a JSON object *)

(** X4: a body that is a JSON object ends in an exception in three cases
    and no other: its type is [task_request] and its payload is present and
    not a dict ([payload.get] raises); its type is [agent_event] and its
    payload cannot be rendered; or it goes to the echo and the body cannot
    be rendered. *)
Theorem object_body_raises_iff :
  forall entries : list (string * PyVal),
    (exists log e, a2a_endpoint (body_of entries) = (log, Raise e)) <->
    exists t,
      dict_get "type" entries = Some (PStr t) /\
      ((t = "task_request" /\ forall payload, payload_of entries <> PDict payload) \/
       (t = "agent_event" /\ render_error (payload_of entries) <> None) \/
       (t <> "task_chunk" /\ t <> "agent_event" /\
        (t = "task_request" ->
         exists payload, payload_of entries = PDict payload /\ stream_off payload) /\
        render_error (PDict entries) <> None)).
Proof.
  intros entries. split.
  - intros (log & e & H).
    destruct (dict_get "type" entries) as [v |] eqn:Hget.
    + destruct v as [ | b | n | r | t | items | d ];
        try (rewrite not_str_rejected in H;
             [discriminate H | intros t Ht; rewrite Hget in Ht; discriminate Ht]).
      exists t. split; [reflexivity |].
      rewrite (dispatch_closed_form _ _ Hget) in H.
      unfold echo_outcome, event_outcome in H.
      destruct (String.eqb_spec t "task_request") as [Heq | Hreq].
      * subst t. destruct (payload_of entries) as [ | b | n | r | s | items | payload ] eqn:Hp;
          try (left; split; [reflexivity | intros payload; discriminate]).
        destruct (truthy _) eqn:Hs; [discriminate H |].
        right. right. repeat split; try discriminate.
        -- intros _. exists payload. split; [reflexivity | now apply stream_off_iff].
        -- destruct (render_error (PDict entries)); [discriminate | discriminate H].
      * destruct (String.eqb_spec t "task_chunk") as [Hc | Hc]; [discriminate H |].
        destruct (String.eqb_spec t "agent_event") as [He | He].
        -- right. left. split; [assumption |].
           destruct (render_error (payload_of entries)); [discriminate | discriminate H].
        -- right. right. repeat split; try assumption.
           ++ intros Ht. now elim Hreq.
           ++ destruct (render_error (PDict entries)); [discriminate | discriminate H].
    + rewrite not_str_rejected in H;
        [discriminate H | intros t Ht; rewrite Hget in Ht; discriminate Ht].
  - intros (t & Htype & Hcase).
    rewrite (dispatch_closed_form _ _ Htype).
    unfold echo_outcome, event_outcome.
    destruct Hcase as [[-> Hshape] | [[-> Hrender] | (Hc & He & Hstream & Hrender)]].
    + cbn [String.eqb Ascii.eqb Bool.eqb].
      destruct (payload_of entries) as [ | b | n | r | s | items | payload ];
        try (do 2 eexists; reflexivity).
      now elim (Hshape payload).
    + cbn [String.eqb Ascii.eqb Bool.eqb].
      destruct (render_error (payload_of entries)) as [e |]; [| now elim Hrender].
      do 2 eexists. reflexivity.
    + apply String.eqb_neq in Hc, He. rewrite Hc, He.
      destruct (render_error (PDict entries)) as [e |]; [| now elim Hrender].
      destruct (String.eqb_spec t "task_request") as [Hreq | Hreq].
      * destruct (Hstream Hreq) as (payload & Hpayload & Hoff).
        rewrite Hpayload. apply stream_off_iff in Hoff. rewrite Hoff.
        do 2 eexists. reflexivity.
      * do 2 eexists. reflexivity.
Qed.

Lemma object_body_raises_iff_witness :
  exists log e,
    a2a_endpoint (body_of [("type", PStr "ping"); ("x", PFloat "inf")]) = (log, Raise e).
Proof.
  apply (proj2 (object_body_raises_iff [("type", PStr "ping"); ("x", PFloat "inf")])).
  exists "ping". split; [reflexivity |].
  right. right. repeat split; discriminate.
Defined.

(** X5: for a [task_request] whose payload is a dict, the stream is chosen
    by the truth value of [stream], not by its being [true]: the progress
    stream is sent unless [stream] is absent, [false], [null], zero or an
    empty string, list or dict, in which case the body is echoed (or the
    rendering of the echo raises). *)
Theorem task_request_routes_on_truth_value :
  forall entries payload : list (string * PyVal),
    dict_get "type" entries = Some (PStr "task_request") ->
    dict_get "payload" entries = Some (PDict payload) ->
    (stream_off payload ->
     a2a_endpoint (body_of entries) =
       match render_error (PDict entries) with
       | Some e => ([], Raise e)
       | None => ([], Return (JSONResponse (PDict [("status", PStr "ok");
                                                   ("type", PStr "task_request");
                                                   ("echo", PDict entries)]) 200))
       end) /\
    (~ stream_off payload ->
     a2a_endpoint (body_of entries)
       = ([], Return (StreamingResponse stream_task_progress "application/json"))).
Proof.
  intros entries payload Htype Hpayload.
  rewrite (dispatch_closed_form _ _ Htype).
  unfold payload_of. rewrite Hpayload. cbn [String.eqb Ascii.eqb Bool.eqb].
  split; intros H.
  - apply stream_off_iff in H. now rewrite H.
  - destruct (truthy _) eqn:E; [reflexivity |].
    apply stream_off_iff in E. now elim H.
Qed.

Lemma task_request_routes_on_truth_value_witness :
  a2a_endpoint (body_of [("type", PStr "task_request");
                         ("payload", PDict [("stream", PStr "no")])])
    = ([], Return (StreamingResponse stream_task_progress "application/json")).
Proof.
  apply (proj2 (task_request_routes_on_truth_value
                  [("type", PStr "task_request"); ("payload", PDict [("stream", PStr "no")])]
                  [("stream", PStr "no")] eq_refl eq_refl)).
  intros [H | (v & H & Hv)]; [discriminate H |].
  injection H as <-. inversion Hv.
Defined.

(** *** All the outcomes of the handler *)

(** X6: whatever the request, the handler has one of these outcomes, each
    with its log: the two 400 replies; a [TypeError] or an [AttributeError]
    of the checks; the two streams, both announced as [application/json];
    for an [agent_event], the payload logged and then the acknowledgement
    or the exception of its rendering; the echo of the body it was sent, or
    the exception of its rendering.  A JSON reply has status 400 or 200 and
    nothing else. *)
Theorem a2a_endpoint_outcomes :
  forall request : Request,
    (exists str_e,
       json request = Failure str_e /\
       a2a_endpoint request
         = ([mkLog ERROR ("Failed to parse JSON: " ++ str_e)],
            Return (JSONResponse (error_content "Invalid JSON payload") 400))) \/
    (exists body,
       json request = Body body /\
       (a2a_endpoint request
          = ([mkLog ERROR ("Missing or invalid 'type' field in message: " ++ str body)],
             Return (JSONResponse (error_content "Missing or invalid 'type' field") 400)) \/
        a2a_endpoint request = ([], Raise TypeError) \/
        a2a_endpoint request = ([], Raise AttributeError) \/
        a2a_endpoint request
          = ([], Return (StreamingResponse stream_task_progress "application/json")) \/
        a2a_endpoint request
          = ([], Return (StreamingResponse chunk_stream "application/json")) \/
        (exists entries,
           body = PDict entries /\
           dict_get "type" entries = Some (PStr "agent_event") /\
           render_error (payload_of entries) = None /\
           a2a_endpoint request
             = ([mkLog INFO ("[agent_event] " ++ str (payload_of entries))],
                Return (JSONResponse (PDict [("status", PStr "ok");
                                             ("type", PStr "agent_event");
                                             ("event", payload_of entries)]) 200))) \/
        (exists entries e,
           body = PDict entries /\
           dict_get "type" entries = Some (PStr "agent_event") /\
           render_error (payload_of entries) = Some e /\
           a2a_endpoint request
             = ([mkLog INFO ("[agent_event] " ++ str (payload_of entries))], Raise e)) \/
        (exists entries t,
           body = PDict entries /\
           dict_get "type" entries = Some (PStr t) /\
           render_error body = None /\
           a2a_endpoint request
             = ([], Return (JSONResponse (PDict [("status", PStr "ok");
                                                 ("type", PStr t);
                                                 ("echo", body)]) 200))) \/
        (exists entries t e,
           body = PDict entries /\
           dict_get "type" entries = Some (PStr t) /\
           render_error body = Some e /\
           a2a_endpoint request = ([], Raise e)))).
Proof.
  intros [[body | str_e]].
  2: { left. exists str_e. split; reflexivity. }
  right. exists body. split; [reflexivity |].
  destruct body as [ | b | n | r | s | items | entries ].
  1-4: right; left; reflexivity.
  - rewrite a2a_endpoint_str_body. destruct (is_substring "type" s).
    + right. right. left. reflexivity.
    + left. reflexivity.
  - rewrite a2a_endpoint_list_body. destruct (existsb _ items).
    + right. right. left. reflexivity.
    + left. reflexivity.
  - change {| json := Body (PDict entries) |} with (body_of entries).
    assert (Hrej : (forall t, dict_get "type" entries <> Some (PStr t)) ->
                   a2a_endpoint (body_of entries)
                     = ([mkLog ERROR ("Missing or invalid 'type' field in message: "
                                      ++ str (PDict entries))],
                        Return (JSONResponse
                                  (error_content "Missing or invalid 'type' field") 400)))
      by apply not_str_rejected.
    assert (Hecho : forall t,
              dict_get "type" entries = Some (PStr t) ->
              (exists entries0 t0,
                 PDict entries = PDict entries0 /\
                 dict_get "type" entries0 = Some (PStr t0) /\
                 render_error (PDict entries) = None /\
                 echo_outcome t entries
                   = ([], Return (JSONResponse (PDict [("status", PStr "ok");
                                                       ("type", PStr t0);
                                                       ("echo", PDict entries)]) 200))) \/
              (exists entries0 t0 e,
                 PDict entries = PDict entries0 /\
                 dict_get "type" entries0 = Some (PStr t0) /\
                 render_error (PDict entries) = Some e /\
                 echo_outcome t entries = ([], Raise e))).
    { intros t Ht. unfold echo_outcome.
      destruct (render_error (PDict entries)) as [e |].
      - right. now exists entries, t, e.
      - left. now exists entries, t. }
    destruct (dict_get "type" entries) as [v |] eqn:Hget.
    + destruct v as [ | b | n | r | t | items | d ];
        try (left; apply Hrej; intros t Ht; discriminate Ht).
      rewrite (dispatch_closed_form _ _ Hget).
      destruct (String.eqb t "task_request").
      * destruct (payload_of entries); try (right; right; left; reflexivity).
        destruct (truthy _).
        -- do 3 right. left. reflexivity.
        -- do 7 right. now apply Hecho.
      * destruct (String.eqb t "task_chunk"); [do 4 right; left; reflexivity |].
        destruct (String.eqb_spec t "agent_event") as [He | He].
        -- subst t. unfold event_outcome.
           destruct (render_error (payload_of entries)) as [e |] eqn:Hr.
           ++ do 6 right. left. now exists entries, e.
           ++ do 5 right. left. now exists entries.
        -- do 7 right. now apply Hecho.
    + left. apply Hrej. intros t Ht. discriminate Ht.
Qed.



(** X8: the dispatch reads nothing of a validated body but its type and its
    payload: two bodies that agree on both get the same outcome, log
    included, or each goes to the echo of itself (which is rendered from the
    whole body).  The sender, the recipient and any other field change
    nothing else. *)
Theorem routing_reads_type_and_payload_only :
  forall (entries1 entries2 : list (string * PyVal)) (t : string),
    dict_get "type" entries1 = Some (PStr t) ->
    dict_get "type" entries2 = Some (PStr t) ->
    dict_get "payload" entries1 = dict_get "payload" entries2 ->
    a2a_endpoint (body_of entries1) = a2a_endpoint (body_of entries2) \/
    (a2a_endpoint (body_of entries1)
       = match render_error (PDict entries1) with
         | Some e => ([], Raise e)
         | None => ([], Return (JSONResponse (PDict [("status", PStr "ok");
                                                     ("type", PStr t);
                                                     ("echo", PDict entries1)]) 200))
         end /\
     a2a_endpoint (body_of entries2)
       = match render_error (PDict entries2) with
         | Some e => ([], Raise e)
         | None => ([], Return (JSONResponse (PDict [("status", PStr "ok");
                                                     ("type", PStr t);
                                                     ("echo", PDict entries2)]) 200))
         end).
Proof.
  intros entries1 entries2 t H1 H2 Hp.
  assert (Hpayload : payload_of entries1 = payload_of entries2)
    by (unfold payload_of; now rewrite Hp).
  rewrite (dispatch_closed_form _ _ H1), (dispatch_closed_form _ _ H2), Hpayload.
  destruct (String.eqb t "task_request").
  - destruct (payload_of entries2); try (left; reflexivity).
    destruct (truthy _); [left; reflexivity | right; split; reflexivity].
  - destruct (String.eqb t "task_chunk"); [left; reflexivity |].
    destruct (String.eqb t "agent_event"); [left; reflexivity |].
    right. split; reflexivity.
Qed.

Lemma routing_reads_type_and_payload_only_witness :
  a2a_endpoint (body_of [("type", PStr "ping")])
    = a2a_endpoint (body_of [("type", PStr "ping"); ("x", PFloat "inf")]) \/
  (a2a_endpoint (body_of [("type", PStr "ping")])
     = match render_error (PDict [("type", PStr "ping")]) with
       | Some e => ([], Raise e)
       | None => ([], Return (JSONResponse
                                (PDict [("status", PStr "ok");
                                        ("type", PStr "ping");
                                        ("echo", PDict [("type", PStr "ping")])]) 200))
       end /\
   a2a_endpoint (body_of [("type", PStr "ping"); ("x", PFloat "inf")])
     = match render_error (PDict [("type", PStr "ping"); ("x", PFloat "inf")]) with
       | Some e => ([], Raise e)
       | None => ([], Return (JSONResponse
                                (PDict [("status", PStr "ok");
                                        ("type", PStr "ping");
                                        ("echo", PDict [("type", PStr "ping");
                                                        ("x", PFloat "inf")])]) 200))
       end).
Proof.
  apply (routing_reads_type_and_payload_only
           [("type", PStr "ping")]
           [("type", PStr "ping"); ("x", PFloat "inf")]
           "ping"); reflexivity.
Defined.

(** *** The test script's change of [stream] *)

Lemma dict_get_set_same key v d : dict_get key (dict_set key v d) = Some v.
Proof.
  induction d as [| [k x] d IH]; cbn [dict_set dict_get].
  - now rewrite String.eqb_refl.
  - destruct (String.eqb k key) eqn:E; cbn [dict_get]; now rewrite E.
Qed.

Lemma dict_get_set_other key key' v d :
  key <> key' -> dict_get key' (dict_set key v d) = dict_get key' d.
Proof.
  intros Hne. induction d as [| [k x] d IH]; cbn [dict_set dict_get].
  - apply String.eqb_neq in Hne. now rewrite Hne.
  - destruct (String.eqb_spec k key) as [-> | Hk]; cbn [dict_get].
    + apply String.eqb_neq in Hne. now rewrite Hne.
    + now rewrite IH.
Qed.

(** The message the script sends last is [A2A_MSG] after the assignment. *)
Example A2A_MSG_after_assignment :
  set_payload_stream A2A_MSG (PBool false) = Return A2A_MSG_nostream.
Proof. reflexivity. Qed.

(** X9: after [msg["payload"]["stream"] = v] on a [task_request] message
    whose payload is a dict, the handler routes on [v] alone, whatever
    [stream] was before: with [False], or another value whose truth value is
    false, the changed message goes to the echo; with any other value it is
    streamed.  The assignment leaves the other fields of the message as they
    were. *)
Theorem reply_after_stream_assignment :
  forall (msg payload : list (string * PyVal)) (v : PyVal),
    dict_get "type" msg = Some (PStr "task_request") ->
    dict_get "payload" msg = Some (PDict payload) ->
    exists msg',
      set_payload_stream msg v = Return msg' /\
      (forall key, key <> "payload" -> dict_get key msg' = dict_get key msg) /\
      (falsy_value v ->
       a2a_endpoint (body_of msg') =
         match render_error (PDict msg') with
         | Some e => ([], Raise e)
         | None => ([], Return (JSONResponse (PDict [("status", PStr "ok");
                                                     ("type", PStr "task_request");
                                                     ("echo", PDict msg')]) 200))
         end) /\
      (~ falsy_value v ->
       a2a_endpoint (body_of msg')
         = ([], Return (StreamingResponse stream_task_progress "application/json"))).
Proof.
  intros msg payload v Htype Hpayload.
  exists (dict_set "payload" (PDict (dict_set "stream" v payload)) msg).
  assert (Htype' : dict_get "type"
                     (dict_set "payload" (PDict (dict_set "stream" v payload)) msg)
                   = Some (PStr "task_request"))
    by (rewrite dict_get_set_other; [assumption | discriminate]).
  split; [| split; [| split]].
  - unfold set_payload_stream. now rewrite Hpayload.
  - intros key Hkey. apply dict_get_set_other. congruence.
  - intros Hv. apply truthy_false_iff in Hv.
    rewrite (dispatch_closed_form _ _ Htype').
    unfold payload_of. rewrite dict_get_set_same, dict_get_set_same, Hv. reflexivity.
  - intros Hv. rewrite (dispatch_closed_form _ _ Htype').
    unfold payload_of. rewrite dict_get_set_same, dict_get_set_same.
    destruct (truthy v) eqn:E; [reflexivity |].
    apply truthy_false_iff in E. now elim Hv.
Qed.

Lemma reply_after_stream_assignment_witness :
  exists msg',
    set_payload_stream A2A_MSG (PBool false) = Return msg' /\
    (forall key, key <> "payload" -> dict_get key msg' = dict_get key A2A_MSG) /\
    (falsy_value (PBool false) ->
     a2a_endpoint (body_of msg') =
       match render_error (PDict msg') with
       | Some e => ([], Raise e)
       | None => ([], Return (JSONResponse (PDict [("status", PStr "ok");
                                                   ("type", PStr "task_request");
                                                   ("echo", PDict msg')]) 200))
       end) /\
    (~ falsy_value (PBool false) ->
     a2a_endpoint (body_of msg')
       = ([], Return (StreamingResponse stream_task_progress "application/json"))).
Proof.
  apply (reply_after_stream_assignment A2A_MSG
           [("task_id", PStr "t1"); ("stream", PBool true)] (PBool false));
    reflexivity.
Defined.

(** *** Pacing of the two streams *)

(** X10: the frame of index [k] of the progress stream is yielded after
    [k] sleeps of 500 ms, that of the chunk stream after [k] sleeps of
    300 ms: one sleep stands between two frames, the [result] frame
    included.  The [result] frame is the last thing either generator does:
    nothing is yielded after the sixth, resp. fourth, frame, and no sleep
    follows it. *)
Theorem stream_pacing :
  forall k : nat,
    ((k <= 5)%nat -> delay_before k stream_task_progress = Some (500 * Z.of_nat k)) /\
    ((5 < k)%nat -> delay_before k stream_task_progress = None) /\
    ((k <= 3)%nat -> delay_before k chunk_stream = Some (300 * Z.of_nat k)) /\
    ((3 < k)%nat -> delay_before k chunk_stream = None) /\
    List.last stream_task_progress (Sleep 0) = Yield (done_text ++ nl) /\
    List.last chunk_stream (Sleep 0)
      = Yield ("{'type': 'result', 'payload': {'result': 'final from chunk'}}" ++ nl) /\
    List.length stream_task_progress = 11%nat /\
    List.length chunk_stream = 7%nat.
Proof.
  intros k. repeat split; try reflexivity; intros H;
    do 6 (destruct k as [| k]; [first [reflexivity | lia] |]);
    first [reflexivity | lia].
Qed.

Lemma stream_pacing_witness :
  delay_before 5 stream_task_progress = Some (500 * Z.of_nat 5).
Proof.
  apply (proj1 (stream_pacing 5)). lia.
Defined.
